(** * SprintBuddy: a shallow embedding of the accountability core

    The repository has two page components. The development follows the
    one with [normalizeTaskText] and [detectResistance]; [getCurrentStreak],
    [isPastDeadline] and the penalty engine are the same, word for word, in
    both.

    Conventions of the embedding.
    - A JavaScript string is a [string] of bytes, the UTF-8 encoding of its
      text. [String.prototype.toLowerCase] and [String.prototype.trim]
      follow the Unicode tables of the engine: they are the two methods of
      the class [StringHost], and what is assumed of them, where something
      is, is their action on ASCII text ([AsciiLaws]). The character
      classes of the source's regular expressions are ASCII and are written
      out.
    - An amount of money is a JavaScript number: a binary64 [float], with
      its rounding, its infinities and [NaN]. [Number] applied to a string
      is computed exactly, as a rational or one of the three special values,
      which is all that [Number.isFinite] and the clock arithmetic ask of it.
    - [Set<string>] is a [gset string]; [localStorage] is a
      [gmap string string], and reading it does not throw.
    - A [Date] is its time value, in milliseconds since the epoch, together
      with the offset of the host's time zone, which is the same all year.
    - The clock, the time zone and [JSON.parse] belong to the host and are
      parameters of the functions that use them. *)

From Stdlib Require Import Floats.
From Stdlib Require Import ZArith QArith Qround Lia.
From Stdlib Require Import String Ascii List Bool.
From stdpp Require Import gmap strings list.

Set Warnings "-register-all".
Set Warnings "-inexact-float".

Local Open Scope string_scope.
Local Open Scope Z_scope.

(** ** JavaScript strings *)

Module JS.

Definition isUpper (c : ascii) : bool :=
  let n := nat_of_ascii c in (65 <=? n)%nat && (n <=? 90)%nat.

Definition isLower (c : ascii) : bool :=
  let n := nat_of_ascii c in (97 <=? n)%nat && (n <=? 122)%nat.

Definition isDigit (c : ascii) : bool :=
  let n := nat_of_ascii c in (48 <=? n)%nat && (n <=? 57)%nat.

Definition toLowerChar (c : ascii) : ascii :=
  if isUpper c then ascii_of_nat (nat_of_ascii c + 32) else c.

(** What [toLowerCase] does to ASCII text: the letters A to Z become a to
    z, and nothing else changes. *)
Fixpoint lowerASCII (s : string) : string :=
  match s with
  | EmptyString => EmptyString
  | String c r => String (toLowerChar c) (lowerASCII r)
  end.

(** The text has ASCII characters only: no byte of it is above 127. *)
Fixpoint isAscii (s : string) : bool :=
  match s with
  | EmptyString => true
  | String c r => (nat_of_ascii c <? 128)%nat && isAscii r
  end.

(** The white space of the ASCII range: tab, line feed, vertical tab, form
    feed, carriage return and space. *)
Definition isWhiteSpace (c : ascii) : bool :=
  let n := nat_of_ascii c in ((9 <=? n)%nat && (n <=? 13)%nat) || (n =? 32)%nat.

Fixpoint trimStart (s : string) : string :=
  match s with
  | EmptyString => EmptyString
  | String c r => if isWhiteSpace c then trimStart r else s
  end.

Fixpoint trimEnd (s : string) : string :=
  match s with
  | EmptyString => EmptyString
  | String c r =>
      match trimEnd r with
      | EmptyString => if isWhiteSpace c then EmptyString else String c EmptyString
      | r' => String c r'
      end
  end.

(** What [trim] does to ASCII text, and the white space [Number] strips
    from a time of day. *)
Definition trim (s : string) : string := trimEnd (trimStart s).

(** A string is falsy exactly when it is empty: [s || fallback]. *)
Definition orElse (s fallback : string) : string :=
  match s with EmptyString => fallback | _ => s end.

(** [s.startsWith(p)], returning what follows the prefix. *)
Fixpoint stripPrefix (p s : string) : option string :=
  match p, s with
  | EmptyString, _ => Some s
  | String a p', String b s' => if Ascii.eqb a b then stripPrefix p' s' else None
  | String _ _, EmptyString => None
  end.

(** Every suffix of [s], the longest first: the positions at which a
    search may start. *)
Fixpoint suffixes (s : string) : list string :=
  s :: match s with
       | EmptyString => []
       | String _ r => suffixes r
       end.

(** [s.includes(p)] *)
Definition includes (p s : string) : bool :=
  existsb (fun t => bool_decide (is_Some (stripPrefix p t))) (suffixes s).

(** [s.split(sep)] for a one-character separator. *)
Fixpoint split (sep : ascii) (s : string) : list string :=
  match s with
  | EmptyString => [EmptyString]
  | String c r =>
      if Ascii.eqb c sep then EmptyString :: split sep r
      else match split sep r with
           | [] => [String c EmptyString]
           | x :: xs => String c x :: xs
           end
  end.

(** [s.slice(0, n)] *)
Fixpoint slice0 (n : nat) (s : string) : string :=
  match n, s with
  | O, _ => EmptyString
  | S n', String c r => String c (slice0 n' r)
  | S _, EmptyString => EmptyString
  end.

End JS.

(** ** The string methods of the engine

    [String.prototype.toLowerCase] and [String.prototype.trim], on the
    UTF-8 encoding of the text. Both follow the Unicode tables the engine
    ships: the case mappings, under which a letter outside ASCII can
    lower-case to an ASCII one, and the white space of every script. *)

Class StringHost : Type := {
  toLowerCase : string -> string;
  trim : string -> string
}.

(** What the language fixes the two methods to on ASCII text. *)
Record AsciiLaws (engine : StringHost) : Prop := {
  toLowerCase_ascii :
    forall s : string, JS.isAscii s = true -> toLowerCase s = JS.lowerASCII s;
  trim_ascii :
    forall s : string, JS.isAscii s = true -> trim s = JS.trim s
}.

(** An engine that leaves every byte outside ASCII alone. *)
Definition asciiHost : StringHost :=
  {| toLowerCase := JS.lowerASCII; trim := JS.trim |}.

(** ** Numbers

    [Math.min] and [Math.max] of two numbers: [NaN] when either is, and
    [-0] below [+0]. *)

Local Open Scope float_scope.

Definition mathMin (a b : float) : float :=
  if is_nan a || is_nan b then nan
  else if a <? b then a
  else if b <? a then b
  else if get_sign a then a else b.

Definition mathMax (a b : float) : float :=
  if is_nan a || is_nan b then nan
  else if a <? b then b
  else if b <? a then a
  else if get_sign a then b else a.

(** The length of an array as a number. *)
Definition ofCount (n : nat) : float := of_uint63 (Uint63.of_Z (Z.of_nat n)).

Local Close Scope float_scope.

(** ** Regular expressions

    The fragment the source uses: literals, alternation, sequence, [?] and
    [.*]. [rests r s] lists what is left of [s] after each way [r] can match
    a prefix of it; [test] is [RegExp.prototype.test] without flags, a
    search from every position. *)

Module Regex.

Inductive regex : Type :=
| Never
| Lit (s : string)
| Alt (r1 r2 : regex)
| Seq (r1 r2 : regex)
| Opt (r : regex)
| AnyStar.

(** [.] matches every character but a line terminator: line feed,
    carriage return, and the line and paragraph separators U+2028 and
    U+2029, three bytes each in UTF-8. *)
Definition lineSeparator : string :=
  String (ascii_of_nat 226) (String (ascii_of_nat 128) (String (ascii_of_nat 168) EmptyString)).

Definition paragraphSeparator : string :=
  String (ascii_of_nat 226) (String (ascii_of_nat 128) (String (ascii_of_nat 169) EmptyString)).

Definition atLineTerminator (s : string) : bool :=
  match s with
  | EmptyString => false
  | String c _ =>
      let n := nat_of_ascii c in
      (n =? 10)%nat || (n =? 13)%nat
      || bool_decide (is_Some (JS.stripPrefix lineSeparator s))
      || bool_decide (is_Some (JS.stripPrefix paragraphSeparator s))
  end.

Fixpoint dotStarRests (s : string) : list string :=
  s :: match s with
       | EmptyString => []
       | String _ r => if atLineTerminator s then [] else dotStarRests r
       end.

Fixpoint rests (r : regex) (s : string) : list string :=
  match r with
  | Never => []
  | Lit p => match JS.stripPrefix p s with Some t => [t] | None => [] end
  | Alt a b => rests a s ++ rests b s
  | Seq a b => flat_map (rests b) (rests a s)
  | Opt a => rests a s ++ [s]
  | AnyStar => dotStarRests s
  end.

Definition matchesAt (r : regex) (s : string) : bool :=
  match rests r s with [] => false | _ :: _ => true end.

Definition test (r : regex) (s : string) : bool :=
  existsb (matchesAt r) (JS.suffixes s).

(** [(p1|p2|...|pn)] over literal phrases. *)
Definition oneOf (ps : list string) : regex :=
  fold_right (fun p r => Alt (Lit p) r) Never ps.

(** [r1 r2 ... rn] *)
Definition seqOf (rs : list regex) : regex :=
  fold_right Seq (Lit EmptyString) rs.

(** [(r1|r2|...|rn)] *)
Definition anyOf (rs : list regex) : regex :=
  fold_right Alt Never rs.

End Regex.

(** ** Untyped values

    What [JSON.parse] returns, and what a value typed [unknown] can hold.
    [undefined] is the absence of a value: an [option JValue]. The fields
    of an object are listed once each; reading a property takes the first
    entry under that name. *)

Inductive JValue : Type :=
| JNull
| JBool (b : bool)
| JNum (x : float)
| JStr (s : string)
| JArr (items : list JValue)
| JObj (fields : list (string * JValue)).

Fixpoint assoc (k : string) (fields : list (string * JValue)) : option JValue :=
  match fields with
  | [] => None
  | (k', v) :: rest => if String.eqb k k' then Some v else assoc k rest
  end.

(** [value.k] on a value that is not [null]: only an object parsed from
    JSON has properties under the names the code reads. *)
Definition prop (k : string) (value : JValue) : option JValue :=
  match value with
  | JObj fields => assoc k fields
  | _ => None
  end.

(** ** Data model *)

Record ActionItem : Type := mkAction {
  id : string;
  text : string;
  completedDates : list string
}.

Record SavedState : Type := mkSaved {
  plannerGoal : string;
  plannerProblem : string;
  actions : list ActionItem;
  proofLog : string;
  strictMode : bool;
  deadlineTime : string;
  stakeBalance : float;
  stakePerMiss : float;
  totalPenalties : float;
  lastPenaltyDate : string
}.

Definition APP_STORAGE_KEY : string := "phd-buddy-v1".

Definition defaultState : SavedState := {|
  plannerGoal := "";
  plannerProblem := "";
  actions := [];
  proofLog := "";
  strictMode := true;
  deadlineTime := "21:00";
  stakeBalance := 0%float;
  stakePerMiss := 15%float;
  totalPenalties := 0%float;
  lastPenaltyDate := ""
|}.

(** ** Task normalizer *)

Definition isKeyChar (c : ascii) : bool := JS.isLower c || JS.isDigit c.

(** [.replace(/[^a-z0-9]+/g, " ")]: [inRun] says that the character before
    was already replaced. *)
Fixpoint collapseRuns (inRun : bool) (s : string) : string :=
  match s with
  | EmptyString => EmptyString
  | String c r =>
      if isKeyChar c then String c (collapseRuns false r)
      else if inRun then collapseRuns true r
      else String " " (collapseRuns true r)
  end.

Definition normalizeTaskText `{StringHost} (value : string) : string :=
  trim (collapseRuns false (toLowerCase value)).

(** [.filter((entry): entry is string => typeof entry === "string")] *)
Fixpoint onlyStrings (entries : list JValue) : list string :=
  match entries with
  | [] => []
  | JStr s :: rest => s :: onlyStrings rest
  | _ :: rest => onlyStrings rest
  end.

(** The [map] callback of [normalizeActions]; [None] is its [null]. *)
Definition toActionItem (item : JValue) : option ActionItem :=
  match item with
  | JObj fields =>
      match assoc "id" fields, assoc "text" fields with
      | Some (JStr i), Some (JStr t) =>
          Some {| id := i;
                  text := t;
                  completedDates :=
                    match assoc "completedDates" fields with
                    | Some (JArr entries) => onlyStrings entries
                    | _ => []
                    end |}
      | _, _ => None
      end
  | _ => None
  end.

(** The [filter] callback of [normalizeActions] run over the mapped
    entries, the set [seen] threaded through. *)
Fixpoint keepFirstSeen `{StringHost} (seen : gset string)
    (items : list (option ActionItem)) : list ActionItem :=
  match items with
  | [] => []
  | None :: rest => keepFirstSeen seen rest
  | Some item :: rest =>
      let key := normalizeTaskText (text item) in
      if bool_decide (key = "") || bool_decide (key ∈ seen)
      then keepFirstSeen seen rest
      else item :: keepFirstSeen ({[key]} ∪ seen) rest
  end.

Definition normalizeActions `{StringHost} (value : option JValue) : list ActionItem :=
  match value with
  | Some (JArr items) => keepFirstSeen ∅ (map toActionItem items)
  | _ => []
  end.

(** The key under which two entries count as the same task. *)
Definition taskKey `{StringHost} (a : ActionItem) : string := normalizeTaskText (text a).

(** The well-typed entries of a candidate value, in the order given. *)
Definition wellTyped (value : option JValue) : list ActionItem :=
  match value with
  | Some (JArr items) => omap toActionItem items
  | _ => []
  end.

(** The contract of the normalizer in the spec's words: going through the
    candidates in order, an entry is dropped when its key is empty or is
    the key of an entry kept earlier, and kept otherwise. [kept] lists the
    keys of the entries kept so far. *)
Fixpoint firstSeenSpec `{StringHost} (kept : list string)
    (candidates : list ActionItem) : list ActionItem :=
  match candidates with
  | [] => []
  | x :: rest =>
      if decide (taskKey x = "" \/ taskKey x ∈ kept)
      then firstSeenSpec kept rest
      else x :: firstSeenSpec (kept ++ [taskKey x]) rest
  end.

Definition normalizeSpec `{StringHost} (candidates : list ActionItem) : list ActionItem :=
  firstSeenSpec [] candidates.

(** The key in the spec's words. Lower-casing and then collapsing every
    run of characters outside [a-z0-9] to one space and trimming leaves the
    words of the lower-cased text, the maximal runs of characters of
    [a-z0-9], with one space between each two of them. [keyRuns] cuts the
    text at every character outside [a-z0-9]; the pieces that are not empty
    are the words. *)
Fixpoint keyRuns (s : string) : list string :=
  match s with
  | EmptyString => [EmptyString]
  | String c r =>
      if isKeyChar c then
        match keyRuns r with
        | [] => [String c EmptyString]
        | run :: runs => String c run :: runs
        end
      else EmptyString :: keyRuns r
  end.

Definition keyWords (s : string) : list string :=
  List.filter (fun run => negb (String.eqb run "")) (keyRuns s).

Definition keySpec `{StringHost} (value : string) : string :=
  String.concat " " (keyWords (toLowerCase value)).

(** What follows the first of the runs: nothing, or a space and the words
    that are left. *)
Definition afterRun (words : list string) : string :=
  match words with
  | [] => EmptyString
  | _ :: _ => String " " (String.concat " " words)
  end.

(** An action list as the untyped value [JSON.stringify] and [JSON.parse]
    carry it. *)
Definition actionToJS (a : ActionItem) : JValue :=
  JObj [("id", JStr (id a)); ("text", JStr (text a));
        ("completedDates", JArr (map JStr (completedDates a)))].

Definition actionsToJS (l : list ActionItem) : JValue :=
  JArr (map actionToJS l).


(** ** Completions

    A call either returns or throws; [tryCatch] is a [try] block with its
    [catch] clause. *)

Inductive error : Type := SyntaxError | TypeError | RangeError.

Inductive completion (A : Type) : Type :=
| Normal (a : A)
| Throw (e : error).

Arguments Normal {A} a.
Arguments Throw {A} e.

Definition bind {A B : Type} (c : completion A) (k : A -> completion B)
  : completion B :=
  match c with
  | Normal a => k a
  | Throw e => Throw e
  end.

Definition tryCatch {A : Type} (body : completion A) (handler : error -> completion A)
  : completion A :=
  match body with
  | Normal a => Normal a
  | Throw e => handler e
  end.

(** ** Numbers read from text *)

Module Num.

Inductive number : Type :=
| NaN
| PosInf
| NegInf
| Fin (q : Q).

(** [Number.isFinite(x)]; [None] is [undefined], which is not a number. *)
Definition isFinite (x : option number) : bool :=
  match x with
  | Some (Fin _) => true
  | _ => false
  end.

Definition digitVal (c : ascii) : option Z :=
  if JS.isDigit c then Some (Z.of_nat (nat_of_ascii c) - 48) else None.

Definition hexVal (c : ascii) : option Z :=
  let n := Z.of_nat (nat_of_ascii c) in
  if JS.isDigit c then Some (n - 48)
  else if (97 <=? n) && (n <=? 102) then Some (n - 87)
  else if (65 <=? n) && (n <=? 70) then Some (n - 55)
  else None.

(** The longest run of decimal digits at the head of [s]: its value
    continuing [acc], its length continuing [n], and the rest of [s]. *)
Fixpoint readDigits (acc : Z) (n : nat) (s : string) : Z * nat * string :=
  match s with
  | EmptyString => (acc, n, s)
  | String c r =>
      match digitVal c with
      | Some d => readDigits (10 * acc + d) (S n) r
      | None => (acc, n, s)
      end
  end.

(** A whole string of digits in base [base], at least one. *)
Fixpoint readRadix (base : Z) (acc : Z) (s : string) : option Z :=
  match s with
  | EmptyString => Some acc
  | String c r =>
      match hexVal c with
      | Some d => if d <? base then readRadix base (base * acc + d) r else None
      | None => None
      end
  end.

Definition radixLiteral (base : Z) (digits : string) : option Q :=
  match digits with
  | EmptyString => None
  | _ => option_map inject_Z (readRadix base 0 digits)
  end.

(** [ExponentPart], optional, up to the end of the string. *)
Definition exponentPart (s : string) : option Z :=
  match s with
  | EmptyString => Some 0
  | String c r =>
      if Ascii.eqb c "e" || Ascii.eqb c "E" then
        let '(negative, r') :=
          match r with
          | String "-" t => (true, t)
          | String "+" t => (false, t)
          | _ => (false, r)
          end in
        match readDigits 0 0 r' with
        | (_, O, _) => None
        | (e, S _, EmptyString) => Some (if negative then - e else e)
        | (_, S _, String _ _) => None
        end
      else None
  end.

(** [StrUnsignedDecimalLiteral] other than [Infinity]: digits with an
    optional fraction, or a fraction alone, then an optional exponent. The
    literal is taken at its exact value. *)
Definition unsignedDecimal (s : string) : option Q :=
  let '(ip, ni, r1) := readDigits 0 0 s in
  let '(fp, nf, r2) :=
    match r1 with
    | String "." r => readDigits 0 0 r
    | _ => (0, O, r1)
    end in
  match ni, nf with
  | O, O => None
  | _, _ =>
      match exponentPart r2 with
      | Some e =>
          Some ((inject_Z ip + inject_Z fp / inject_Z (10 ^ Z.of_nat nf)) * 10 ^ e)%Q
      | None => None
      end
  end.

(** The least magnitude that rounds to an infinity in binary64. *)
Definition overflowAt : Q := inject_Z (2 ^ 1024 - 2 ^ 970).

Definition ofQ (q : Q) : number :=
  if Qle_bool overflowAt q then PosInf
  else if Qle_bool q (- overflowAt) then NegInf
  else Fin q.

Definition negate (x : number) : number :=
  match x with
  | NaN => NaN
  | PosInf => NegInf
  | NegInf => PosInf
  | Fin q => Fin (- q)
  end.

Definition unsignedLiteral (s : string) : number :=
  if String.eqb s "Infinity" then PosInf
  else match unsignedDecimal s with
       | Some q => ofQ q
       | None => NaN
       end.

(** [Number(s)] on a string: [StringToNumber]. *)
Definition Number (s : string) : number :=
  match JS.trim s with
  | EmptyString => Fin 0
  | String "0" (String x digits) as t =>
      if Ascii.eqb x "x" || Ascii.eqb x "X" then
        match radixLiteral 16 digits with Some q => ofQ q | None => NaN end
      else if Ascii.eqb x "o" || Ascii.eqb x "O" then
        match radixLiteral 8 digits with Some q => ofQ q | None => NaN end
      else if Ascii.eqb x "b" || Ascii.eqb x "B" then
        match radixLiteral 2 digits with Some q => ofQ q | None => NaN end
      else unsignedLiteral t
  | String "+" t => unsignedLiteral t
  | String "-" t => negate (unsignedLiteral t)
  | t => unsignedLiteral t
  end.

(** [ToIntegerOrInfinity] on a finite number: the fraction is dropped. *)
Definition truncate (q : Q) : Z :=
  if Qle_bool 0 q then Qfloor q else Qceiling q.

End Num.

(** ** Dates

    A [Date] is its time value: [Some t] for [t] milliseconds since the
    epoch, [None] for an invalid date. [tz] is the host's offset from UTC in
    minutes, positive east of Greenwich (the opposite sign of
    [getTimezoneOffset()]); the zone keeps one offset all year. *)

Module JSDate.

Definition msPerDay : Z := 86400000.
Definition msPerHour : Z := 3600000.
Definition msPerMinute : Z := 60000.
Definition maxTime : Z := 8640000000000000.

Definition timeClip (t : Z) : option Z :=
  if Z.abs t <=? maxTime then Some t else None.

(** The civil date of a day number (days since 1970-01-01), in the
    proleptic Gregorian calendar. *)
Definition civilFromDays (day : Z) : Z * Z * Z :=
  let z := day + 719468 in
  let era := z / 146097 in
  let doe := z - era * 146097 in
  let yoe := (doe - doe / 1460 + doe / 36524 - doe / 146096) / 365 in
  let doy := doe - (365 * yoe + yoe / 4 - yoe / 100) in
  let mp := (5 * doy + 2) / 153 in
  let d := doy - (153 * mp + 2) / 5 + 1 in
  let m := if mp <? 10 then mp + 3 else mp - 9 in
  let y := yoe + era * 400 + (if m <=? 2 then 1 else 0) in
  (y, m, d).

(** The day number of a civil date. *)
Definition daysFromCivil (y m d : Z) : Z :=
  let y' := if m <=? 2 then y - 1 else y in
  let era := y' / 400 in
  let yoe := y' - era * 400 in
  let doy := (153 * (if 2 <? m then m - 3 else m + 9) + 2) / 5 + d - 1 in
  let doe := yoe * 365 + yoe / 4 - yoe / 100 + doy in
  era * 146097 + doe - 719468.

Definition isLeapYear (y : Z) : bool :=
  ((y mod 4 =? 0) && negb (y mod 100 =? 0)) || (y mod 400 =? 0).

Definition daysInMonth (y m : Z) : Z :=
  if m =? 2 then (if isLeapYear y then 29 else 28)
  else if (m =? 4) || (m =? 6) || (m =? 9) || (m =? 11) then 30
  else 31.

Definition digitChar (d : Z) : ascii := ascii_of_nat (Z.to_nat (48 + d mod 10)).

(** The last [width] decimal digits of [n], zero padded. *)
Fixpoint pad (width : nat) (n : Z) : string :=
  match width with
  | O => EmptyString
  | S w => pad w (n / 10) ++ String (digitChar n) EmptyString
  end.

(** Years 0 to 9999 print with four digits, the others with a sign and six. *)
Definition yearString (y : Z) : string :=
  if (0 <=? y) && (y <=? 9999) then pad 4 y
  else (if y <? 0 then "-" else "+") ++ pad 6 (Z.abs y).

(** The date part of [toISOString()] for a time value: the UTC date. *)
Definition isoDate (t : Z) : string :=
  let '(y, m, d) := civilFromDays (t / msPerDay) in
  yearString y ++ "-" ++ pad 2 m ++ "-" ++ pad 2 d.

(** [date.toISOString().slice(0, 10)]; an invalid date throws. *)
Definition toISOStringSlice10 (date : option Z) : completion string :=
  match date with
  | Some t => Normal (JS.slice0 10 (isoDate t))
  | None => Throw RangeError
  end.

(** Exactly [n] decimal digits at the head of [s]. *)
Fixpoint readFixed (n : nat) (acc : Z) (s : string) : option (Z * string) :=
  match n with
  | O => Some (acc, s)
  | S n' =>
      match s with
      | String c r =>
          match Num.digitVal c with
          | Some d => readFixed n' (10 * acc + d) r
          | None => None
          end
      | EmptyString => None
      end
  end.

(** The day number a key [YYYY-MM-DD] names, when it names a date. *)
Definition parseDateKey (key : string) : option Z :=
  match readFixed 4 0 key with
  | Some (y, String "-" r1) =>
      match readFixed 2 0 r1 with
      | Some (m, String "-" r2) =>
          match readFixed 2 0 r2 with
          | Some (d, EmptyString) =>
              if (1 <=? m) && (m <=? 12) && (1 <=? d) && (d <=? daysInMonth y m)
              then Some (daysFromCivil y m d)
              else None
          | _ => None
          end
      | _ => None
      end
  | _ => None
  end.

(** [new Date(`${key}T00:00:00`)]: a date-time without an offset is local
    time, so the time value is local midnight moved back to UTC. Only the
    form [YYYY-MM-DD] is read; any other key gives an invalid date. *)
Definition localMidnight (tz : Z) (key : string) : option Z :=
  match parseDateKey key with
  | Some day => timeClip (day * msPerDay - tz * msPerMinute)
  | None => None
  end.

(** [date.setDate(date.getDate() - 1)]: the same local time one day
    earlier. *)
Definition setDatePrev (date : option Z) : option Z :=
  match date with
  | Some t => timeClip (t - msPerDay)
  | None => None
  end.

(** [date.setHours(h, m, 0, 0)] for finite [h] and [m]: the local day of
    [t] at [h:m:00.000], hours and minutes beyond their range carried
    over. *)
Definition setHours (tz : Z) (t : Z) (h m : Q) : option Z :=
  let day := (t + tz * msPerMinute) / msPerDay in
  let time := Num.truncate h * msPerHour + Num.truncate m * msPerMinute in
  timeClip (day * msPerDay + time - tz * msPerMinute).

End JSDate.

(** [getTodayKey] with the clock's reading passed in. *)
Definition getTodayKey (now : Z) : string := JS.slice0 10 (JSDate.isoDate now).

(** ** Streak calculator *)

(** A [while (true)] loop whose body either continues with a new state or
    leaves with a result. [loopFor n] runs the body at most [2 ^ n] times
    and answers [inl] when the loop has not left by then. *)
Fixpoint loopFor {S R : Type} (n : nat) (body : S -> S + R) (s : S) : S + R :=
  match n with
  | O => body s
  | Datatypes.S n' =>
      match loopFor n' body s with
      | inl s' => loopFor n' body s'
      | inr r => inr r
      end
  end.

(** The two nested [for ... of] loops that fill [daysWithCompletion]. *)
Definition daysWithCompletion (actions : list ActionItem) : gset string :=
  fold_left
    (fun days action =>
       fold_left (fun days' day => {[day]} ∪ days') (completedDates action) days)
    actions ∅.

(** One turn of the loop of [getCurrentStreak] on [(cursor, streak)]. *)
Definition streakBody (days : gset string) (st : option Z * nat)
  : (option Z * nat) + completion nat :=
  let '(cursor, streak) := st in
  match JSDate.toISOStringSlice10 cursor with
  | Throw e => inr (Throw e)
  | Normal key =>
      if bool_decide (key ∈ days)
      then inl (JSDate.setDatePrev cursor, Datatypes.S streak)
      else inr (Normal streak)
  end.

(** More turns than there are days in the range of [Date]. *)
Definition streakTurns : nat := 28.

(** [getCurrentStreak] in a zone [tz]; [None] stands for a loop still
    running after [2 ^ streakTurns] turns. *)
Definition getCurrentStreak (tz : Z) (actions : list ActionItem) (todayKey : string)
  : option (completion nat) :=
  let days := daysWithCompletion actions in
  let cursor := JSDate.localMidnight tz todayKey in
  match loopFor streakTurns (streakBody days) (cursor, O) with
  | inr result => Some result
  | inl _ => None
  end.

(** The loop body run [k] times in a row, for reasoning about [loopFor]. *)
Fixpoint steps {S R : Type} (k : nat) (body : S -> S + R) (s : S) : S + R :=
  match k with
  | O => inl s
  | Datatypes.S k' =>
      match body s with
      | inl s' => steps k' body s'
      | inr r => inr r
      end
  end.

(** The key of a UTC day number, as [toISOString().slice(0, 10)] prints
    it. *)
Definition dayKey (day : Z) : string :=
  JS.slice0 10 (JSDate.isoDate (day * JSDate.msPerDay)).

(** The keys of [count] days from [day] on all name the day they were
    printed for. *)
Definition keysParseBack (count : N) (day : Z) : bool :=
  snd (N.iter count
         (fun st : Z * bool =>
            let (d, ok) := st in
            (d + 1,
             ok && match JSDate.parseDateKey (dayKey d) with
                   | Some d' => d' =? d
                   | None => false
                   end))
         (day, true)).

(** Some action was completed on the day [key]. *)
Definition completedOn (actions : list ActionItem) (key : string) : Prop :=
  exists action : ActionItem, action ∈ actions /\ key ∈ completedDates action.

(** How many UTC days local midnight lies from the UTC midnight of the
    same date: 0 at and west of Greenwich, -1 east of it. *)
Definition zoneShift (tz : Z) : Z := (- (tz * JSDate.msPerMinute)) / JSDate.msPerDay.

(** ** Penalty engine *)

(** [action.completedDates.includes(todayKey)] *)
Definition doneOn (todayKey : string) (action : ActionItem) : bool :=
  bool_decide (todayKey ∈ completedDates action).

Definition missedTasks (actions : list ActionItem) (todayKey : string) : nat :=
  length (List.filter (fun action => negb (doneOn todayKey action)) actions).

Definition rawPenalty (s : SavedState) (todayKey : string) : float :=
  (ofCount (missedTasks (actions s) todayKey) * stakePerMiss s)%float.

Definition penaltyToday (s : SavedState) (todayKey : string) : float :=
  mathMin (stakeBalance s) (rawPenalty s todayKey).

Definition canApplyPenalty (s : SavedState) (todayKey : string) (deadlinePassed : bool)
  : bool :=
  strictMode s
  && deadlinePassed
  && (0 <? missedTasks (actions s) todayKey)%nat
  && negb (String.eqb (lastPenaltyDate s) todayKey)
  && (0 <? stakeBalance s)%float.

(** [isPastDeadline] with the clock's reading [now] and the zone passed
    in. *)
Definition isPastDeadline (tz : Z) (now : Z) (deadlineTime : string) : bool :=
  let parts := map Num.Number (JS.split ":" deadlineTime) in
  let h := nth_error parts 0 in
  let m := nth_error parts 1 in
  match h, m with
  | Some (Num.Fin hq), Some (Num.Fin mq) =>
      match JSDate.setHours tz now hq mq with
      | Some deadline => deadline <? now
      | None => false
      end
  | _, _ => false
  end.

(** A time of day written [HH:MM], as the time input of the page hands it
    over. *)
Definition clockKey (hh mm : Z) : string :=
  JSDate.pad 2 hh ++ ":" ++ JSDate.pad 2 mm.

(** Milliseconds into the local day at clock reading [now]. *)
Definition msIntoLocalDay (tz now : Z) : Z :=
  (now + tz * JSDate.msPerMinute) mod JSDate.msPerDay.

(** The two strings [isPastDeadline] reads its numbers from. *)
Definition hourPart (deadlineTime : string) : option string :=
  nth_error (JS.split ":" deadlineTime) 0.

Definition minutePart (deadlineTime : string) : option string :=
  nth_error (JS.split ":" deadlineTime) 1.

(** The state of the page component that the penalty handler reads and
    writes: the persisted fields and the celebration counter. *)
Record Home : Type := mkHome {
  saved : SavedState;
  lastCelebration : nat
}.

(** [applyPenalty] as the state transition of one press, in a render that
    computed [todayKey] and [deadlinePassed]. *)
Definition applyPenalty (todayKey : string) (deadlinePassed : bool) (st : Home) : Home :=
  let s := saved st in
  if negb (canApplyPenalty s todayKey deadlinePassed)
     || (penaltyToday s todayKey <=? 0)%float
  then st
  else
    {| saved :=
         {| plannerGoal := plannerGoal s;
            plannerProblem := plannerProblem s;
            actions := actions s;
            proofLog := proofLog s;
            strictMode := strictMode s;
            deadlineTime := deadlineTime s;
            stakeBalance := mathMax 0 (stakeBalance s - penaltyToday s todayKey);
            stakePerMiss := stakePerMiss s;
            totalPenalties := (totalPenalties s + penaltyToday s todayKey)%float;
            lastPenaltyDate := todayKey |};
       lastCelebration := lastCelebration st + 1 |}.

(** The press gets past the guard
    [if (!canApplyPenalty || penaltyToday <= 0) return]. *)
Definition applies (todayKey : string) (deadlinePassed : bool) (st : Home) : Prop :=
  canApplyPenalty (saved st) todayKey deadlinePassed = true
  /\ (penaltyToday (saved st) todayKey <=? 0)%float = false.

(** Any number of presses on the day [todayKey], one render each, the
    deadline having passed or not at each of them. *)
Definition presses (todayKey : string) (passed : list bool) (st : Home) : Home :=
  fold_left (fun st' deadlinePassed => applyPenalty todayKey deadlinePassed st') passed st.

(** The press of the penalty button at clock reading [now]. *)
Definition pressApplyPenalty (tz : Z) (now : Z) (st : Home) : Home :=
  applyPenalty (getTodayKey now)
               (isPastDeadline tz now (deadlineTime (saved st))) st.

(** ** Resistance classifier *)

Inductive Resistance : Type :=
| ambiguity
| overwhelm
| anxiety
| inertia
| perfectionism
| default.

(** The template literal [`${a} ${b}`]. *)
Definition joinWithSpace (a b : string) : string := a ++ " " ++ b.

Definition detectResistance `{StringHost} (goal blocker : string) : Resistance :=
  let text := toLowerCase (joinWithSpace goal blocker) in
  if Regex.test
       (Regex.oneOf ["don't know where to start"; "not sure how"; "don't know what to do";
                     "where do i begin"; "no idea"; "confused about"; "what should i"])
       text then ambiguity
  else if Regex.test
       (Regex.oneOf ["too much"; "so many things"; "everything"; "a lot to do";
                     "piling up"; "can't keep up"; "buried"; "behind on"])
       text then overwhelm
  else if Regex.test
       (Regex.oneOf ["stressing"; "stressed"; "worried"; "scared"; "nervous"; "afraid";
                     "matters a lot"; "important"; "can't mess up"; "pressure"])
       text then anxiety
  else if Regex.test
       (Regex.oneOf ["keep putting off"; "procrastinat"; "avoiding"; "haven't started";
                     "been meaning to"; "weeks"; "months"; "forever"])
       text then inertia
  else if Regex.test
       (Regex.oneOf ["has to be perfect"; "not good enough"; "redoing"; "can't finish";
                     "keep starting over"; "nothing feels right"])
       text then perfectionism
  else default.

(** The classifier in the spec's words: the categories in their order of
    priority, each with the phrases it is known by; the first category one
    of whose phrases occurs in the text wins, and [default] is the answer
    when none does. The text is the two inputs, one space between them,
    in lower case. *)
Definition ambiguityPhrases : list string :=
  ["don't know where to start"; "not sure how"; "don't know what to do";
   "where do i begin"; "no idea"; "confused about"; "what should i"].

Definition overwhelmPhrases : list string :=
  ["too much"; "so many things"; "everything"; "a lot to do"; "piling up";
   "can't keep up"; "buried"; "behind on"].

Definition anxietyPhrases : list string :=
  ["stressing"; "stressed"; "worried"; "scared"; "nervous"; "afraid";
   "matters a lot"; "important"; "can't mess up"; "pressure"].

Definition inertiaPhrases : list string :=
  ["keep putting off"; "procrastinat"; "avoiding"; "haven't started";
   "been meaning to"; "weeks"; "months"; "forever"].

Definition perfectionismPhrases : list string :=
  ["has to be perfect"; "not good enough"; "redoing"; "can't finish";
   "keep starting over"; "nothing feels right"].

Definition priorityOrder : list (Resistance * list string) :=
  [ (ambiguity, ambiguityPhrases);
    (overwhelm, overwhelmPhrases);
    (anxiety, anxietyPhrases);
    (inertia, inertiaPhrases);
    (perfectionism, perfectionismPhrases) ].

(** [phrase] occurs in [text]: some characters, the phrase, and the
    rest. *)
Definition occursIn (text : string) (phrase : string) : Prop :=
  exists before after : string, text = before ++ phrase ++ after.

(** The text has one of the phrases in it. *)
Definition recognizes (text : string) (phrases : list string) : Prop :=
  exists phrase : string, In phrase phrases /\ occursIn text phrase.

(** [firstMatch text order answer]: going down [order], [answer] is the
    first category that recognizes [text], or [default] at the end of
    it. *)
Inductive firstMatch (text : string) : list (Resistance * list string) -> Resistance -> Prop :=
| firstMatch_none : firstMatch text [] default
| firstMatch_here (category : Resistance) (phrases : list string)
    (rest : list (Resistance * list string)) :
    recognizes text phrases ->
    firstMatch text ((category, phrases) :: rest) category
| firstMatch_later (category : Resistance) (phrases : list string)
    (rest : list (Resistance * list string)) (answer : Resistance) :
    ~ recognizes text phrases ->
    firstMatch text rest answer ->
    firstMatch text ((category, phrases) :: rest) answer.

(** The same, as a function. *)
Definition matchesCategory (text : string) (entry : Resistance * list string) : bool :=
  existsb (fun phrase => JS.includes phrase text) (snd entry).

Definition firstMatching (text : string) (order : list (Resistance * list string))
  : Resistance :=
  match List.find (matchesCategory text) order with
  | Some (category, _) => category
  | None => default
  end.

Definition classifySpec (text : string) : Resistance := firstMatching text priorityOrder.

(** ** Task suggestion engine *)

Import Regex.

Definition roomPattern : regex :=
  oneOf ["room"; "floor"; "vacuum"; "clean"; "tidy"; "organize"; "organise"; "mess"].

Definition sourdoughPattern : regex :=
  oneOf ["sourdough"; "starter"; "bread"; "bake"].

Definition paperPattern : regex :=
  oneOf ["paper"; "manuscript"; "thesis"; "research"; "journal"; "discussion";
         "results"; "experiment"; "figure"; "figures"].

(** [(edit(ing)? figures?|figure edit|fix figures?|figure formatting|axis label)] *)
Definition editingFiguresPattern : regex :=
  anyOf [seqOf [Lit "edit"; Opt (Lit "ing"); Lit " figure"; Opt (Lit "s")];
         Lit "figure edit";
         seqOf [Lit "fix figure"; Opt (Lit "s")];
         Lit "figure formatting";
         Lit "axis label"].

(** [(write|draft).*(discussion)|discussion section] *)
Definition discussionPattern : regex :=
  anyOf [seqOf [oneOf ["write"; "draft"]; AnyStar; Lit "discussion"];
         Lit "discussion section"].

(** [(write|draft).*(results?)|results section|experiment] *)
Definition resultsPattern : regex :=
  anyOf [seqOf [oneOf ["write"; "draft"]; AnyStar; Lit "result"; Opt (Lit "s")];
         Lit "results section";
         Lit "experiment"].

Definition projectPattern : regex :=
  oneOf ["project"; "write"; "code"; "study"; "design"; "plan"; "finish"].

Definition openingDesk : string :=
  "Clear your desk and throw away anything that does not belong there for 4 minutes.".

Definition openingFloor : string :=
  "Pick up everything on your floor and put it on your bed for 5 minutes.".

Definition tenMinuteInertia : string :=
  "Set a 10-minute timer, open your project, and add exactly one sentence to move it forward.".

Definition tenMinuteDefault : string :=
  "Set a 10-minute timer and finish one paragraph for your project, nothing more.".

Definition buildSuggestedTasks `{StringHost} (goal problem : string) : list string :=
  let cleanGoal := JS.orElse (trim goal) "your main phd goal" in
  let cleanProblem := JS.orElse (trim problem) "starting feels hard" in
  let resistance := detectResistance cleanGoal cleanProblem in
  let text := toLowerCase (joinWithSpace cleanGoal cleanProblem) in
  let hasRoom := test roomPattern text in
  let hasSourdough := test sourdoughPattern text in
  let hasPaper := test paperPattern text in
  let hasEditingFigures := test editingFiguresPattern text in
  let hasDiscussion := test discussionPattern text in
  let hasResults := test resultsPattern text in
  let hasProject := test projectPattern text in
  let tasks :=
    [ if hasRoom then openingFloor else openingDesk;
      if hasSourdough then
        "Feed your sourdough starter: 50g flour, 50g water, stir, and put the lid on."
      else if hasEditingFigures || hasPaper then
        "Open your figure file, zoom in on figure 1, and set your toolbar for editing in 3 minutes."
      else
        "Open the file you need and set up only the tools you need in 3 minutes.";
      if hasEditingFigures then
        "Fix the axis labels and adjust font sizes on figure 1 for 10 minutes only, then stop."
      else if hasDiscussion then
        "Open your discussion section, read your results section, and write one sentence about what your main finding means in 10 minutes only."
      else match resistance with
           | ambiguity =>
               "Open your project document and write one sentence: what done looks like for this project, 8 minutes only."
           | _ =>
               "Outline the next 3 steps for your project in bullet points for 8 minutes only."
           end;
      if hasRoom then "Vacuum the floor for 7 minutes and stop when the timer ends."
      else "Stand up, get water, and come back to your desk in 3 minutes.";
      if hasResults then
        "Pick one experiment, write one result sentence, and add the figure reference for 10 minutes only."
      else if hasEditingFigures then
        "Export figure 1 as a 300 dpi PNG and do not touch figure 2 for 8 minutes only."
      else match resistance with
           | anxiety =>
               "Set a 10-minute timer, open your project, and finish one paragraph that starts with your best guess."
           | inertia => tenMinuteInertia
           | perfectionism =>
               "Set a 10-minute timer, write one rough paragraph, and keep it even if it is imperfect."
           | _ => tenMinuteDefault
           end;
      if hasPaper || hasProject then
        "Save your document, close the file, and write one line for your next action in 2 minutes."
      else
        "Put a check mark next to what you finished and write one next action in 2 minutes."
    ] in
  firstn 6 tasks.

(** ** State codec *)

Module Codec.

(** What [loadSavedState] hands back at run time. The cast
    [as Partial<SavedState>] checks nothing, so a field the object spread
    copies from the blob holds whatever value the blob has under that
    name. *)
Record Loaded : Type := mkLoaded {
  plannerGoal : JValue;
  plannerProblem : JValue;
  actions : list ActionItem;
  proofLog : JValue;
  strictMode : JValue;
  deadlineTime : JValue;
  stakeBalance : float;
  stakePerMiss : float;
  totalPenalties : float;
  lastPenaltyDate : JValue
}.

(** A well-typed state seen as a run-time value. *)
Definition ofSaved (s : SavedState) : Loaded :=
  let 'mkSaved goal problem items log strict deadline balance perMiss total last := s in
  {| plannerGoal := JStr goal;
     plannerProblem := JStr problem;
     actions := items;
     proofLog := JStr log;
     strictMode := JBool strict;
     deadlineTime := JStr deadline;
     stakeBalance := balance;
     stakePerMiss := perMiss;
     totalPenalties := total;
     lastPenaltyDate := JStr last |}.

(** Field [k] of [{ ...defaultState, ...parsed }]: the blob's value when
    the blob has an own property [k], the default otherwise. *)
Definition spread (k : string) (fallback : JValue) (parsed : JValue) : JValue :=
  match prop k parsed with
  | Some v => v
  | None => fallback
  end.

(** [typeof x === "number" && x >= 0 ? x : fallback] *)
Definition nonNegativeOr (fallback : float) (x : option JValue) : float :=
  match x with
  | Some (JNum q) => if (0 <=? q)%float then q else fallback
  | _ => fallback
  end.

(** The [try] block after [JSON.parse]. Reading [parsed.actions] throws
    when [parsed] is [null]. *)
Definition decodeParsed `{StringHost} (parsed : JValue) : completion Loaded :=
  match parsed with
  | JNull => Throw TypeError
  | _ =>
      let d := ofSaved defaultState in
      Normal {|
        plannerGoal := spread "plannerGoal" (plannerGoal d) parsed;
        plannerProblem := spread "plannerProblem" (plannerProblem d) parsed;
        actions := normalizeActions (prop "actions" parsed);
        proofLog := spread "proofLog" (proofLog d) parsed;
        strictMode := spread "strictMode" (strictMode d) parsed;
        deadlineTime := spread "deadlineTime" (deadlineTime d) parsed;
        stakeBalance := nonNegativeOr (stakeBalance d) (prop "stakeBalance" parsed);
        stakePerMiss := nonNegativeOr (stakePerMiss d) (prop "stakePerMiss" parsed);
        totalPenalties := nonNegativeOr (totalPenalties d) (prop "totalPenalties" parsed);
        lastPenaltyDate := spread "lastPenaltyDate" (lastPenaltyDate d) parsed
      |}
  end.

(** The host: whether [window] is defined, and the contents of
    [localStorage]. *)
Record Host : Type := mkHost {
  hasWindow : bool;
  localStorage : gmap string string
}.

Section WithParser.

Context `{StringHost}.

(** [JSON.parse], [None] where it throws a [SyntaxError]. *)
Variable JSON_parse : string -> option JValue.

Definition parseJSON (raw : string) : completion JValue :=
  match JSON_parse raw with
  | Some v => Normal v
  | None => Throw SyntaxError
  end.

(** [loadSavedState]: the state it returns and the storage it leaves. *)
Definition loadSavedState (host : Host) : completion (Loaded * gmap string string) :=
  let store := localStorage host in
  if negb (hasWindow host) then Normal (ofSaved defaultState, store)
  else
    match store !! APP_STORAGE_KEY with
    | None => Normal (ofSaved defaultState, store)
    | Some EmptyString => Normal (ofSaved defaultState, store)
    | Some saved =>
        tryCatch
          (bind (parseJSON saved) (fun parsed =>
           bind (decodeParsed parsed) (fun state =>
           Normal (state, store))))
          (fun _ => Normal (ofSaved defaultState, delete APP_STORAGE_KEY store))
    end.

End WithParser.

End Codec.



(** The state [loadSavedState] falls back to. *)
Definition defaultLoaded : Codec.Loaded := Codec.ofSaved defaultState.

(** The blob is there to be parsed: [window] exists and the key holds a
    string that is not empty. *)
Definition holdsBlob (host : Codec.Host) (raw : string) : Prop :=
  Codec.hasWindow host = true
  /\ Codec.localStorage host !! APP_STORAGE_KEY = Some raw
  /\ raw <> "".


(** ** Concrete inputs *)

(** One action, done on 10 May 2024 and on no other day. *)
Definition doneTenthOfMay : list ActionItem :=
  [ {| id := "a"; text := "read one paper"; completedDates := ["2024-05-10"] |} ].

(** Three days in a row up to 10 May 2024, spread over two actions. *)
Definition threeDayRun : list ActionItem :=
  [ {| id := "a"; text := "read one paper"; completedDates := ["2024-05-10"; "2024-05-08"] |};
    {| id := "b"; text := "draft 200 words"; completedDates := ["2024-05-09"] |} ].

(** 10 May 2024 at 20:59, 21:01 and 22:00 UTC. *)
Definition oneBeforeNine : Z := 19853 * JSDate.msPerDay + 20 * JSDate.msPerHour + 59 * JSDate.msPerMinute.
Definition oneAfterNine : Z := 19853 * JSDate.msPerDay + 21 * JSDate.msPerHour + 1 * JSDate.msPerMinute.
Definition tenInTheEvening : Z := 19853 * JSDate.msPerDay + 22 * JSDate.msPerHour.


Definition corruptHost : Codec.Host :=
  {| Codec.hasWindow := true;
     Codec.localStorage := {[ APP_STORAGE_KEY := "not json" ]} |}.

(** The same worry, shouted and not. *)
Definition shoutedBlocker : string := "I FEEL STRESSED".
Definition quietBlocker : string := "i feel stressed".

(** Two candidates with one key, and an entry that is not a task. *)
Definition readPaper : ActionItem :=
  {| id := "a"; text := "  Read:  ONE paper!! (2nd) "; completedDates := ["2024-05-10"] |}.

Definition readPaperAgain : ActionItem :=
  {| id := "b"; text := "read one paper 2nd"; completedDates := [] |}.

Definition twiceTheSame : option JValue :=
  Some (JArr [actionToJS readPaper; JNull; actionToJS readPaperAgain]).

(** The planner input of the spec's scenario. *)
Definition scenarioGoal : string := "finish methods section draft".
Definition scenarioBlocker : string := "i overthink and delay starting".

(** The state of the spec's scenario: balance 10, rate 15, one task, not
    done. *)
Definition scenarioHome : Home :=
  {| saved :=
       {| plannerGoal := ""; plannerProblem := "";
          actions := [ {| id := "a"; text := "read one paper"; completedDates := [] |} ];
          proofLog := ""; strictMode := true; deadlineTime := "21:00";
          stakeBalance := 10; stakePerMiss := 15; totalPenalties := 0;
          lastPenaltyDate := "2024-05-09" |};
     lastCelebration := 0 |}.



(** Amounts in tenths: balance 0.5, rate 0.1, total 0.2, one task, not
    done. *)
Definition tenthsHome : Home :=
  {| saved :=
       {| plannerGoal := ""; plannerProblem := "";
          actions := [ {| id := "a"; text := "read one paper"; completedDates := [] |} ];
          proofLog := ""; strictMode := true; deadlineTime := "21:00";
          stakeBalance := 0.5; stakePerMiss := 0.1; totalPenalties := 0.2;
          lastPenaltyDate := "2024-05-09" |};
     lastCelebration := 0 |}.

(** Balance and rate both [Infinity], one task, not done. *)
Definition allInHome : Home :=
  {| saved :=
       {| plannerGoal := ""; plannerProblem := "";
          actions := [ {| id := "a"; text := "read one paper"; completedDates := [] |} ];
          proofLog := ""; strictMode := true; deadlineTime := "21:00";
          stakeBalance := infinity; stakePerMiss := infinity; totalPenalties := 0;
          lastPenaltyDate := "2024-05-09" |};
     lastCelebration := 0 |}.

(** What seven penalties of 0.1 leave of a deposit of 0.7: a balance of
    [2^-55], with the total at 0.7. *)
Definition dustHome : Home :=
  {| saved :=
       {| plannerGoal := ""; plannerProblem := "";
          actions := [ {| id := "a"; text := "read one paper"; completedDates := [] |} ];
          proofLog := ""; strictMode := true; deadlineTime := "21:00";
          stakeBalance := 0x1p-55; stakePerMiss := 0.1; totalPenalties := 0.7;
          lastPenaltyDate := "2024-05-09" |};
     lastCelebration := 0 |}.

(** * Properties *)

(** ** Binary64 comparisons *)

Section Binary64.

Local Open Scope float_scope.


Lemma SFcompare_antisym (x y : spec_float) :
  SFcompare y x = option_map CompOpp (SFcompare x y).
Proof.
  destruct x as [sx | sx | | sx mx ex], y as [sy | sy | | sy my ey];
    try reflexivity;
    try (destruct sx; reflexivity); try (destruct sy; reflexivity);
    try (destruct sx, sy; reflexivity).
  cbn [SFcompare option_map].
  rewrite (Z.compare_antisym ex ey).
  assert (Hm : Pos.compare_cont Eq my mx = CompOpp (Pos.compare_cont Eq mx my))
    by (symmetry; apply (Pos.compare_cont_antisym mx my Eq)).
  rewrite Hm.
  destruct sx, sy, (ex ?= ey)%Z, (Pos.compare_cont Eq mx my); reflexivity.
Qed.



Lemma leb_of_ltb (x y : float) : (x <? y) = true -> (x <=? y) = true.
Proof.
  rewrite FloatAxioms.ltb_spec, FloatAxioms.leb_spec. unfold SFltb, SFleb.
  destruct (SFcompare (Prim2SF x) (Prim2SF y)) as [[| |] |]; congruence.
Qed.


(** [x < y] rules out [y <= x] and [y < x]. *)
Lemma ltb_leb_false (x y : float) : (x <? y) = true -> (y <=? x) = false.
Proof.
  rewrite FloatAxioms.ltb_spec, FloatAxioms.leb_spec. unfold SFltb, SFleb.
  rewrite (SFcompare_antisym (Prim2SF x) (Prim2SF y)).
  destruct (SFcompare (Prim2SF x) (Prim2SF y)) as [[| |] |]; cbn; congruence.
Qed.

Lemma leb_ltb_false (x y : float) : (x <=? y) = true -> (y <? x) = false.
Proof.
  rewrite FloatAxioms.ltb_spec, FloatAxioms.leb_spec. unfold SFltb, SFleb.
  rewrite (SFcompare_antisym (Prim2SF x) (Prim2SF y)).
  destruct (SFcompare (Prim2SF x) (Prim2SF y)) as [[| |] |]; cbn; congruence.
Qed.






(** [Math.max(0, x)] is never below zero. *)
Lemma mathMax_zero (x : float) : (mathMax 0 x <? 0) = false.
Proof.
  unfold mathMax. change (is_nan 0) with false. cbn [orb].
  destruct (is_nan x); [reflexivity |].
  destruct (0 <? x) eqn:Hpos.
  - apply leb_ltb_false. now apply leb_of_ltb.
  - destruct (x <? 0); reflexivity.
Qed.

End Binary64.

(** ** Penalty engine *)

Section Penalty.

Local Open Scope float_scope.

Lemma applyPenalty_skips (todayKey : string) (deadlinePassed : bool) (st : Home) :
  canApplyPenalty (saved st) todayKey deadlinePassed = false ->
  applyPenalty todayKey deadlinePassed st = st.
Proof. intros Hcan. unfold applyPenalty. now rewrite Hcan. Qed.

Lemma applyPenalty_applies (todayKey : string) (deadlinePassed : bool) (st : Home) :
  applies todayKey deadlinePassed st ->
  applyPenalty todayKey deadlinePassed st =
  {| saved :=
       {| plannerGoal := plannerGoal (saved st);
          plannerProblem := plannerProblem (saved st);
          actions := actions (saved st);
          proofLog := proofLog (saved st);
          strictMode := strictMode (saved st);
          deadlineTime := deadlineTime (saved st);
          stakeBalance :=
            mathMax 0 (stakeBalance (saved st) - penaltyToday (saved st) todayKey);
          stakePerMiss := stakePerMiss (saved st);
          totalPenalties := totalPenalties (saved st) + penaltyToday (saved st) todayKey;
          lastPenaltyDate := todayKey |};
     lastCelebration := lastCelebration st + 1 |}.
Proof.
  intros [Hcan Hpos]. unfold applyPenalty. rewrite Hcan. cbn [negb orb].
  now rewrite Hpos.
Qed.

(** The stamp alone closes the gate, whatever else the state holds. *)
Lemma canApplyPenalty_stamped (s : SavedState) (todayKey : string) (deadlinePassed : bool) :
  lastPenaltyDate s = todayKey -> canApplyPenalty s todayKey deadlinePassed = false.
Proof.
  intros Hstamp. unfold canApplyPenalty.
  rewrite Hstamp, String.eqb_refl. cbn [negb].
  now rewrite andb_false_r.
Qed.

Lemma presses_stamped (todayKey : string) (passed : list bool) : forall st : Home,
  lastPenaltyDate (saved st) = todayKey -> presses todayKey passed st = st.
Proof.
  induction passed as [| p passed IH]; intros st Hstamp; [reflexivity |].
  unfold presses in *. cbn [fold_left].
  rewrite (applyPenalty_skips todayKey p st) by now apply canApplyPenalty_stamped.
  now apply IH.
Qed.

Lemma applyPenalty_stamps (todayKey : string) (deadlinePassed : bool) (st : Home) :
  applies todayKey deadlinePassed st ->
  lastPenaltyDate (saved (applyPenalty todayKey deadlinePassed st)) = todayKey.
Proof. intros Happ. now rewrite (applyPenalty_applies _ _ _ Happ). Qed.

Lemma applyPenalty_cases (todayKey : string) (deadlinePassed : bool) (st : Home) :
  applyPenalty todayKey deadlinePassed st = st \/ applies todayKey deadlinePassed st.
Proof.
  unfold applyPenalty, applies.
  destruct (canApplyPenalty (saved st) todayKey deadlinePassed); [| now left].
  cbn [negb orb].
  destruct (penaltyToday (saved st) todayKey <=? 0) eqn:Hle; [now left |].
  right. split; reflexivity.
Qed.

(** However many presses a day sees, at most one of them charges. *)
Lemma presses_charge_once (todayKey : string) (passed : list bool) : forall st : Home,
  presses todayKey passed st = st
  \/ exists deadlinePassed : bool,
       In deadlinePassed passed
       /\ applies todayKey deadlinePassed st
       /\ presses todayKey passed st = applyPenalty todayKey deadlinePassed st.
Proof.
  induction passed as [| p passed IH]; intros st; [now left |].
  unfold presses in *. cbn [fold_left].
  destruct (applyPenalty_cases todayKey p st) as [Hskip | Happ].
  - rewrite Hskip. destruct (IH st) as [Hsame | (q & Hin & Happ & Heq)]; [now left |].
    right. exists q. split; [now right | now split].
  - right. exists p. split; [now left |]. split; [exact Happ |].
    apply (presses_stamped todayKey passed). now apply applyPenalty_stamps.
Qed.

(** C1. Once a penalty has been applied for [todayKey], the state carries
    the stamp [lastPenaltyDate = todayKey]; [canApplyPenalty] is then false
    for that key whatever the clock says, and a second press returns the
    state as it is, balance and total penalties included. The same holds
    for any number of further presses and for any state that carries the
    stamp. From any state, however many presses a day sees, at most one of
    them charges. The amounts are binary64 numbers and may be anything,
    infinite or [NaN] included. *)
Theorem applyPenalty_once_per_day (todayKey : string) (st : Home) :
  (forall passed1 passed2 : bool,
     applies todayKey passed1 st ->
     let st1 := applyPenalty todayKey passed1 st in
     lastPenaltyDate (saved st1) = todayKey
     /\ canApplyPenalty (saved st1) todayKey passed2 = false
     /\ applyPenalty todayKey passed2 st1 = st1
     /\ stakeBalance (saved (applyPenalty todayKey passed2 st1)) = stakeBalance (saved st1)
     /\ totalPenalties (saved (applyPenalty todayKey passed2 st1))
        = totalPenalties (saved st1)
     /\ (forall later : list bool, presses todayKey later st1 = st1)
     /\ (forall st' : Home,
           lastPenaltyDate (saved st') = todayKey ->
           applyPenalty todayKey passed2 st' = st'))
  /\ (forall passed : list bool,
        presses todayKey passed st = st
        \/ exists deadlinePassed : bool,
             In deadlinePassed passed
             /\ applies todayKey deadlinePassed st
             /\ presses todayKey passed st = applyPenalty todayKey deadlinePassed st).
Proof.
  split; [| intros passed; apply presses_charge_once].
  intros passed1 passed2 Happ st1.
  assert (Hstamp : lastPenaltyDate (saved st1) = todayKey)
    by now apply applyPenalty_stamps.
  assert (Hskip : forall st' : Home,
             lastPenaltyDate (saved st') = todayKey ->
             applyPenalty todayKey passed2 st' = st').
  { intros st' H'. apply applyPenalty_skips. now apply canApplyPenalty_stamped. }
  repeat split.
  - exact Hstamp.
  - now apply canApplyPenalty_stamped.
  - now apply Hskip.
  - now rewrite Hskip.
  - now rewrite Hskip.
  - intros later. now apply presses_stamped.
  - exact Hskip.
Qed.

Lemma scenarioHome_applies : applies "2024-05-10" true scenarioHome.
Proof. split; reflexivity. Qed.

(** In the scenario state the first press charges and the second does
    nothing. *)
Lemma applyPenalty_once_per_day_witness :
  applies "2024-05-10" true scenarioHome
  /\ applyPenalty "2024-05-10" true scenarioHome <> scenarioHome
  /\ applyPenalty "2024-05-10" true (applyPenalty "2024-05-10" true scenarioHome)
     = applyPenalty "2024-05-10" true scenarioHome.
Proof.
  split; [exact scenarioHome_applies |].
  split; [vm_compute; discriminate |].
  exact (proj1 (proj2 (proj2
           (proj1 (applyPenalty_once_per_day "2024-05-10" scenarioHome)
              true true scenarioHome_applies)))).
Defined.




(** The sum of C10 is not kept. Balance 0.5, total 0.2, one missed task
    at 0.1: the gate is open and the penalty is 0.1. The press leaves a
    balance of 0.4 and a total of 0.30000000000000004; the balance has not
    gone down by the penalty, the total has not gone up by it, and their
    sum is not what it was. *)
Lemma applyPenalty_sum_not_kept :
  canApplyPenalty (saved tenthsHome) "2024-05-10" true = true
  /\ penaltyToday (saved tenthsHome) "2024-05-10" = 0.1
  /\ stakeBalance (saved (applyPenalty "2024-05-10" true tenthsHome)) = 0.4
  /\ totalPenalties (saved (applyPenalty "2024-05-10" true tenthsHome))
     = 0.30000000000000004
  /\ (stakeBalance (saved tenthsHome)
        - stakeBalance (saved (applyPenalty "2024-05-10" true tenthsHome))
      =? penaltyToday (saved tenthsHome) "2024-05-10") = false
  /\ (totalPenalties (saved (applyPenalty "2024-05-10" true tenthsHome))
        - totalPenalties (saved tenthsHome)
      =? penaltyToday (saved tenthsHome) "2024-05-10") = false
  /\ (stakeBalance (saved (applyPenalty "2024-05-10" true tenthsHome))
        + totalPenalties (saved (applyPenalty "2024-05-10" true tenthsHome))
      =? stakeBalance (saved tenthsHome) + totalPenalties (saved tenthsHome)) = false.
Proof. repeat split; vm_compute; reflexivity. Qed.

(** C10, amended. When the gate is open and the penalty is positive,
    [applyPenalty] sets the balance to [Math.max(0, balance - penaltyToday)]
    and the total to [totalPenalties + penaltyToday], each rounded as
    binary64 rounds it; the new balance is not below 0; it stamps
    [lastPenaltyDate] with [todayKey] and leaves the seven other persisted
    fields as they were. *)
Theorem applyPenalty_frame
  (todayKey : string) (deadlinePassed : bool) (st : Home) :
  canApplyPenalty (saved st) todayKey deadlinePassed = true ->
  (0 <? penaltyToday (saved st) todayKey) = true ->
  let s := saved st in
  let s' := saved (applyPenalty todayKey deadlinePassed st) in
  stakeBalance s' = mathMax 0 (stakeBalance s - penaltyToday s todayKey)
  /\ totalPenalties s' = totalPenalties s + penaltyToday s todayKey
  /\ (stakeBalance s' <? 0) = false
  /\ lastPenaltyDate s' = todayKey
  /\ actions s' = actions s
  /\ plannerGoal s' = plannerGoal s
  /\ plannerProblem s' = plannerProblem s
  /\ proofLog s' = proofLog s
  /\ strictMode s' = strictMode s
  /\ deadlineTime s' = deadlineTime s
  /\ stakePerMiss s' = stakePerMiss s.
Proof.
  intros Hcan Hpos s s'. subst s s'.
  rewrite (applyPenalty_applies todayKey deadlinePassed st
             (conj Hcan (ltb_leb_false _ _ Hpos))).
  cbn [saved stakeBalance totalPenalties lastPenaltyDate actions plannerGoal
       plannerProblem proofLog strictMode deadlineTime stakePerMiss].
  split; [reflexivity |]. split; [reflexivity |].
  split; [apply mathMax_zero |].
  repeat split.
Qed.

Lemma applyPenalty_frame_witness :
  canApplyPenalty (saved scenarioHome) "2024-05-10" true = true
  /\ (0 <? penaltyToday (saved scenarioHome) "2024-05-10") = true
  /\ stakeBalance (saved (applyPenalty "2024-05-10" true scenarioHome)) = 0
  /\ totalPenalties (saved (applyPenalty "2024-05-10" true scenarioHome)) = 10.
Proof.
  assert (Hcan : canApplyPenalty (saved scenarioHome) "2024-05-10" true = true)
    by reflexivity.
  assert (Hpos : (0 <? penaltyToday (saved scenarioHome) "2024-05-10") = true)
    by reflexivity.
  destruct (applyPenalty_frame "2024-05-10" true scenarioHome Hcan Hpos)
    as (Hbal & Htot & _).
  split; [exact Hcan |]. split; [exact Hpos |].
  split; [rewrite Hbal | rewrite Htot]; reflexivity.
Defined.

(** A balance and a penalty that are both [Infinity] leave a balance that
    is [NaN]: not below 0, and not a number. *)
Lemma applyPenalty_infinite_balance :
  canApplyPenalty (saved allInHome) "2024-05-10" true = true
  /\ penaltyToday (saved allInHome) "2024-05-10" = infinity
  /\ is_nan (stakeBalance (saved (applyPenalty "2024-05-10" true allInHome))) = true.
Proof. repeat split; vm_compute; reflexivity. Qed.

(** A penalty too small for the total to take: the balance of [2^-55]
    goes to 0 and the total of 0.7 stays 0.7. *)
Lemma applyPenalty_total_unmoved :
  canApplyPenalty (saved dustHome) "2024-05-10" true = true
  /\ (0 <? penaltyToday (saved dustHome) "2024-05-10") = true
  /\ stakeBalance (saved (applyPenalty "2024-05-10" true dustHome)) = 0
  /\ totalPenalties (saved (applyPenalty "2024-05-10" true dustHome))
     = totalPenalties (saved dustHome).
Proof. repeat split; vm_compute; reflexivity. Qed.

End Penalty.

(** ** Task normalizer *)

Section Normalizer.

Context `{engine : StringHost}.

Lemma asciiHost_laws : AsciiLaws asciiHost.
Proof. split; reflexivity. Qed.

Lemma isKeyChar_ascii (c : ascii) : isKeyChar c = true -> (nat_of_ascii c <? 128)%nat = true.
Proof. destruct c as [[] [] [] [] [] [] [] []]; vm_compute; congruence. Qed.

Lemma isKeyChar_not_space (c : ascii) : isKeyChar c = true -> JS.isWhiteSpace c = false.
Proof. destruct c as [[] [] [] [] [] [] [] []]; vm_compute; congruence. Qed.

(** What [replace] leaves is ASCII, whatever the text was. *)
Lemma collapseRuns_ascii (s : string) : forall inRun : bool,
  JS.isAscii (collapseRuns inRun s) = true.
Proof.
  induction s as [| c s IH]; intros inRun; [reflexivity |].
  cbn [collapseRuns]. destruct (isKeyChar c) eqn:Hc.
  - cbn [JS.isAscii]. now rewrite (isKeyChar_ascii c Hc), IH.
  - destruct inRun; [apply IH |]. cbn [JS.isAscii]. now rewrite IH.
Qed.

(** After a replaced run the text goes on with a word or ends: there is
    nothing for [trim] to take off its front. *)
Lemma trimStart_collapseRuns_true (s : string) :
  JS.trimStart (collapseRuns true s) = collapseRuns true s.
Proof.
  induction s as [| c s IH]; [reflexivity |].
  cbn [collapseRuns]. destruct (isKeyChar c) eqn:Hc; [| exact IH].
  cbn [JS.trimStart]. now rewrite (isKeyChar_not_space c Hc).
Qed.

Lemma trimStart_collapseRuns_false (s : string) :
  JS.trimStart (collapseRuns false s) = collapseRuns true s.
Proof.
  destruct s as [| c s]; [reflexivity |].
  cbn [collapseRuns]. destruct (isKeyChar c) eqn:Hc.
  - cbn [JS.trimStart]. now rewrite (isKeyChar_not_space c Hc).
  - cbn [JS.trimStart]. change (JS.isWhiteSpace " ") with true. cbn iota.
    apply trimStart_collapseRuns_true.
Qed.

Lemma trimEnd_key (c : ascii) (s : string) :
  isKeyChar c = true -> JS.trimEnd (String c s) = String c (JS.trimEnd s).
Proof.
  intros Hc. cbn [JS.trimEnd]. rewrite (isKeyChar_not_space c Hc).
  now destruct (JS.trimEnd s).
Qed.

Lemma trimEnd_space (s : string) :
  JS.trimEnd (String " " s)
  = match JS.trimEnd s with EmptyString => EmptyString | rest => String " " rest end.
Proof. reflexivity. Qed.

Lemma append_empty_r (s : string) : s ++ "" = s.
Proof.
  induction s as [| c s IH]; [reflexivity |].
  change (String c s ++ "") with (String c (s ++ "")). now rewrite IH.
Qed.

Lemma keyRuns_cons (s : string) : exists (run : string) (runs : list string),
  keyRuns s = run :: runs.
Proof.
  induction s as [| c s (run & runs & IH)]; [now exists EmptyString, [] |].
  cbn [keyRuns]. destruct (isKeyChar c); [| now eexists _, _].
  rewrite IH. now eexists _, _.
Qed.

Lemma keyWords_nonempty (s : string) : Forall (fun word => word <> EmptyString) (keyWords s).
Proof.
  unfold keyWords. apply Forall_forall. intros word Hin.
  apply list_elem_of_In, filter_In in Hin. destruct Hin as [_ Hne].
  intros ->. discriminate.
Qed.

Lemma concat_nonempty (words : list string) :
  Forall (fun word => word <> EmptyString) words ->
  match String.concat " " words with
  | EmptyString => words = []
  | String _ _ => words <> []
  end.
Proof.
  intros Hall. destruct words as [| word words]; [reflexivity |].
  apply Forall_cons in Hall. destruct Hall as [Hne _].
  destruct word as [| c word]; [congruence |].
  cbn [String.concat]. destruct words; cbn; congruence.
Qed.

Lemma trimEnd_collapseRuns (s : string) :
  JS.trimEnd (collapseRuns true s) = String.concat " " (keyWords s)
  /\ JS.trimEnd (collapseRuns false s)
     = match keyRuns s with
       | [] => EmptyString
       | run :: runs =>
           run ++ afterRun (List.filter (fun r => negb (String.eqb r "")) runs)
       end.
Proof.
  induction s as [| c s [IHtrue IHfalse]]; [split; reflexivity |].
  destruct (keyRuns_cons s) as (run & runs & Hruns).
  unfold keyWords in *. cbn [collapseRuns keyRuns].
  destruct (isKeyChar c) eqn:Hc.
  - rewrite Hruns in *. rewrite (trimEnd_key c _ Hc), IHfalse.
    cbn [List.filter String.eqb negb]. split; [| reflexivity].
    destruct (List.filter _ runs); [| reflexivity].
    cbn [afterRun String.concat]. now rewrite append_empty_r.
  - cbn [List.filter String.eqb negb]. split; [exact IHtrue |].
    rewrite trimEnd_space, IHtrue. cbn [String.append].
    pose proof (concat_nonempty _ (keyWords_nonempty s)) as Hwords.
    unfold keyWords in Hwords. rewrite Hruns in *.
    destruct (String.concat " " (List.filter _ (run :: runs))) eqn:Hcat.
    + now rewrite Hwords.
    + destruct (List.filter _ (run :: runs)); [congruence |].
      cbn [afterRun]. now rewrite Hcat.
Qed.

(** The key the code computes is the key of the spec: the words of the
    lower-cased text, one space between them. *)
Lemma normalizeTaskText_keySpec (value : string) :
  AsciiLaws engine -> normalizeTaskText value = keySpec value.
Proof.
  intros Hlaws. unfold normalizeTaskText, keySpec.
  rewrite (trim_ascii engine Hlaws) by apply collapseRuns_ascii.
  unfold JS.trim. rewrite trimStart_collapseRuns_false.
  apply trimEnd_collapseRuns.
Qed.

Lemma normalizeTaskText_example :
  @normalizeTaskText asciiHost "  Read:  ONE paper!! (2nd) " = "read one paper 2nd"
  /\ @normalizeTaskText asciiHost "?!" = "".
Proof. split; reflexivity. Qed.

Implicit Types (seen : gset string) (kept : list string).
Implicit Types (items : list JValue) (l : list ActionItem).

Lemma keepFirstSeen_None seen (rest : list (option ActionItem)) :
  keepFirstSeen seen (None :: rest) = keepFirstSeen seen rest.
Proof. reflexivity. Qed.

Lemma keepFirstSeen_Some seen (x : ActionItem) (rest : list (option ActionItem)) :
  keepFirstSeen seen (Some x :: rest) =
  if decide (taskKey x = "" \/ taskKey x ∈ seen)
  then keepFirstSeen seen rest
  else x :: keepFirstSeen ({[taskKey x]} ∪ seen) rest.
Proof.
  cbn [keepFirstSeen]. fold (taskKey x).
  destruct (decide (taskKey x = "" \/ taskKey x ∈ seen)) as [[H | H] | H].
  - now rewrite (bool_decide_eq_true_2 _ H).
  - rewrite (bool_decide_eq_true_2 _ H). now rewrite orb_true_r.
  - rewrite !bool_decide_eq_false_2; [reflexivity | tauto | tauto].
Qed.

(** The filter over the mapped entries is the contract over the
    well-typed ones, the set [seen] holding the keys kept so far. *)
Lemma keepFirstSeen_spec items : forall seen kept,
  (forall k : string, k ∈ seen <-> k ∈ kept) ->
  keepFirstSeen seen (map toActionItem items) = firstSeenSpec kept (omap toActionItem items).
Proof.
  induction items as [| item items IH]; intros seen kept Hsame; [reflexivity |].
  cbn [map omap list_omap]. fold (omap toActionItem items).
  destruct (toActionItem item) as [x |]; [| now apply IH].
  rewrite keepFirstSeen_Some. cbn [firstSeenSpec].
  destruct (decide (taskKey x = "" \/ taskKey x ∈ seen)) as [Hdrop | Hkeep];
    destruct (decide (taskKey x = "" \/ taskKey x ∈ kept)) as [Hdrop' | Hkeep'].
  - now apply IH.
  - exfalso. apply Hkeep'. destruct Hdrop as [? | ?]; [now left | right; now apply Hsame].
  - exfalso. apply Hkeep. destruct Hdrop' as [? | ?]; [now left | right; now apply Hsame].
  - f_equal. apply IH. intros k.
    rewrite elem_of_union, elem_of_singleton, elem_of_app, list_elem_of_singleton, Hsame.
    tauto.
Qed.

Lemma firstSeenSpec_sublist l : forall kept, firstSeenSpec kept l `sublist_of` l.
Proof.
  induction l as [| x l IH]; intros kept; cbn [firstSeenSpec]; [constructor |].
  destruct (decide _); [apply sublist_cons, IH | apply sublist_skip, IH].
Qed.

(** Every entry kept has a key that is not empty and was not kept before,
    and no two entries kept share a key. *)
Lemma firstSeenSpec_keys l : forall kept,
  Forall (fun a => taskKey a <> "" /\ taskKey a ∉ kept) (firstSeenSpec kept l)
  /\ NoDup (map taskKey (firstSeenSpec kept l)).
Proof.
  induction l as [| x l IH]; intros kept; cbn [firstSeenSpec].
  - split; constructor.
  - destruct (decide _) as [Hdrop | Hkeep]; [apply IH |].
    destruct (IH (kept ++ [taskKey x])%list) as [Hall Hnodup].
    split.
    + constructor; [tauto |].
      eapply Forall_impl; [exact Hall |].
      intros a [Hne Hnotin]. split; [exact Hne |].
      intros Hin. apply Hnotin, elem_of_app. now left.
    + cbn [map]. apply NoDup_cons. split; [| exact Hnodup].
      intros Hin. apply list_elem_of_In, in_map_iff in Hin.
      destruct Hin as (a & Hkey & Ha). apply list_elem_of_In in Ha.
      rewrite Forall_forall in Hall. destruct (Hall a Ha) as [_ Hnotin].
      apply Hnotin, elem_of_app. right. rewrite Hkey. apply list_elem_of_singleton.
      reflexivity.
Qed.

(** Nothing else is dropped: a candidate with a key that is not empty
    finds its key among those kept before or among the entries kept. *)
Lemma firstSeenSpec_covers l : forall kept (x : ActionItem),
  x ∈ l -> taskKey x <> "" ->
  taskKey x ∈ kept \/ taskKey x ∈ map taskKey (firstSeenSpec kept l).
Proof.
  induction l as [| y l IH]; intros kept x Hin Hne.
  - now apply elem_of_nil in Hin.
  - cbn [firstSeenSpec]. apply elem_of_cons in Hin.
    destruct (decide (taskKey y = "" \/ taskKey y ∈ kept)) as [Hdrop | Hkeep].
    + destruct Hin as [-> | Hin]; [| now apply IH].
      destruct Hdrop as [Hempty | Hkept]; [contradiction | now left].
    + cbn [map]. destruct Hin as [-> | Hin].
      * right. apply elem_of_cons. now left.
      * destruct (IH (kept ++ [taskKey y])%list x Hin Hne) as [Hk | Hk].
        -- apply elem_of_app in Hk. destruct Hk as [Hk | Hk]; [now left |].
           apply list_elem_of_singleton in Hk.
           right. apply elem_of_cons. now left.
        -- right. apply elem_of_cons. now right.
Qed.

Lemma firstSeenSpec_app l1 : forall kept l2,
  firstSeenSpec kept (l1 ++ l2) =
  (firstSeenSpec kept l1
   ++ firstSeenSpec (kept ++ map taskKey (firstSeenSpec kept l1)) l2)%list.
Proof.
  induction l1 as [| x l1 IH]; intros kept l2.
  - cbn. now rewrite app_nil_r.
  - cbn [app firstSeenSpec]. destruct (decide _) as [Hdrop | Hkeep].
    + apply IH.
    + cbn [map app]. rewrite IH. now rewrite <- app_assoc.
Qed.

Lemma sublist_elem_of {A : Type} (l1 l2 : list A) (x : A) :
  l1 `sublist_of` l2 -> x ∈ l1 -> x ∈ l2.
Proof.
  intros Hsub. induction Hsub as [| y l1 l2 _ IH | y l1 l2 _ IH]; intros Hin.
  - exact Hin.
  - apply elem_of_cons in Hin. apply elem_of_cons. tauto.
  - apply elem_of_cons. right. now apply IH.
Qed.

Lemma elem_of_map_taskKey l (x : ActionItem) : x ∈ l -> taskKey x ∈ map taskKey l.
Proof. intros Hin. apply list_elem_of_In, in_map, list_elem_of_In, Hin. Qed.

(** Position by position: the candidate that stands after [pre] is kept
    exactly when its key is not empty and no candidate of [pre] has it. *)
Lemma normalizeSpec_position (pre post : list ActionItem) (x : ActionItem) :
  exists outPre outPost : list ActionItem,
    normalizeSpec (pre ++ x :: post) =
      (outPre
       ++ (if decide (taskKey x = "" \/ taskKey x ∈ map taskKey pre) then [] else [x])
       ++ outPost)%list
    /\ outPre = normalizeSpec pre
    /\ outPost `sublist_of` post.
Proof.
  unfold normalizeSpec. rewrite firstSeenSpec_app. cbn [app firstSeenSpec].
  set (outPre := firstSeenSpec [] pre).
  assert (Hiff : taskKey x = "" \/ taskKey x ∈ map taskKey outPre
                 <-> taskKey x = "" \/ taskKey x ∈ map taskKey pre).
  { split; (intros [Hempty | Hin]; [now left |]).
    - right. apply list_elem_of_In, in_map_iff in Hin. destruct Hin as (a & <- & Ha).
      apply elem_of_map_taskKey.
      eapply sublist_elem_of; [apply firstSeenSpec_sublist |].
      apply list_elem_of_In, Ha.
    - destruct (decide (taskKey x = "")) as [Hempty | Hne]; [now left | right].
      apply list_elem_of_In, in_map_iff in Hin. destruct Hin as (a & Hkey & Ha).
      apply list_elem_of_In in Ha. rewrite <- Hkey in Hne |- *.
      destruct (firstSeenSpec_covers pre [] a Ha Hne) as [Hnil | Hout]; [| exact Hout].
      now apply elem_of_nil in Hnil. }
  destruct (decide (taskKey x = "" \/ taskKey x ∈ map taskKey outPre)) as [Hdrop | Hkeep];
    destruct (decide (taskKey x = "" \/ taskKey x ∈ map taskKey pre)) as [Hdrop' | Hkeep'];
    try tauto.
  - eexists outPre, _. split; [reflexivity |]. split; [reflexivity |].
    apply firstSeenSpec_sublist.
  - eexists outPre, _. split; [reflexivity |]. split; [reflexivity |].
    apply firstSeenSpec_sublist.
Qed.

Lemma normalizeActions_spec (value : option JValue) :
  normalizeActions value = normalizeSpec (wellTyped value).
Proof.
  destruct value as [[| | | | items |] |]; try reflexivity.
  cbn [normalizeActions wellTyped]. unfold normalizeSpec.
  apply keepFirstSeen_spec. intros k. split; intros Hk.
  - now apply elem_of_empty in Hk.
  - now apply elem_of_nil in Hk.
Qed.

Lemma normalizeActions_keys (value : option JValue) :
  Forall (fun a => taskKey a <> "") (normalizeActions value)
  /\ NoDup (map taskKey (normalizeActions value)).
Proof.
  rewrite normalizeActions_spec. unfold normalizeSpec.
  destruct (firstSeenSpec_keys (wellTyped value) []) as [Hall Hnodup].
  split; [| exact Hnodup].
  eapply Forall_impl; [exact Hall | intros a [Hne _]; exact Hne].
Qed.

(** C7. [normalizeActions] returns the well-typed candidates in the order
    given, an entry being dropped exactly when its normalization key is
    empty or is the key of an entry kept earlier; so the keys of the
    result are not empty and pairwise different, and every key that is not
    empty is represented by its first candidate. The key of an entry is
    its text in lower case with every run of characters outside [a-z0-9]
    collapsed to one space, and trimmed: the words of the lower-cased
    text, one space between them. *)
Theorem normalizeActions_first_seen (value : option JValue) :
  normalizeActions value = normalizeSpec (wellTyped value)
  /\ normalizeActions value `sublist_of` wellTyped value
  /\ Forall (fun a => taskKey a <> "") (normalizeActions value)
  /\ NoDup (map taskKey (normalizeActions value))
  /\ (forall x : ActionItem,
        x ∈ wellTyped value -> taskKey x <> "" ->
        taskKey x ∈ map taskKey (normalizeActions value))
  /\ (forall (pre post : list ActionItem) (x : ActionItem),
        wellTyped value = (pre ++ x :: post)%list ->
        exists outPost : list ActionItem,
          normalizeActions value =
            (normalizeSpec pre
             ++ (if decide (taskKey x = "" \/ taskKey x ∈ map taskKey pre)
                 then [] else [x])
             ++ outPost)%list
          /\ outPost `sublist_of` post)
  /\ (AsciiLaws engine ->
      forall a : ActionItem,
        taskKey a = String.concat " " (keyWords (toLowerCase (text a)))).
Proof.
  destruct (normalizeActions_keys value) as [Hne Hnodup].
  rewrite normalizeActions_spec in *. unfold normalizeSpec in *.
  split; [reflexivity |].
  split; [apply firstSeenSpec_sublist |].
  split; [exact Hne |].
  split; [exact Hnodup |].
  split; [| split].
  - intros x Hin Hx.
    destruct (firstSeenSpec_covers (wellTyped value) [] x Hin Hx) as [Hnil | Hout];
      [now apply elem_of_nil in Hnil | exact Hout].
  - intros pre post x Hsplit. rewrite Hsplit.
    destruct (normalizeSpec_position pre post x) as (outPre & outPost & Hout & -> & Hsub).
    exists outPost. split; [exact Hout | exact Hsub].
  - intros Hlaws a. unfold taskKey. now apply normalizeTaskText_keySpec.
Qed.

(** Writing an action out and reading it back gives the action. *)
Lemma onlyStrings_JStr (dates : list string) : onlyStrings (map JStr dates) = dates.
Proof. induction dates as [| d dates IH]; cbn; [reflexivity | now rewrite IH]. Qed.

Lemma toActionItem_actionToJS (a : ActionItem) : toActionItem (actionToJS a) = Some a.
Proof. destruct a as [i t dates]. cbn. now rewrite onlyStrings_JStr. Qed.

Lemma map_toActionItem_actionToJS l :
  map toActionItem (map actionToJS l) = map Some l.
Proof.
  induction l as [| a l IH]; cbn [map]; [reflexivity |].
  now rewrite toActionItem_actionToJS, IH.
Qed.

(** A list whose keys are not empty, not yet seen and pairwise different
    passes the filter whole. *)
Lemma keepFirstSeen_fixed l : forall seen,
  Forall (fun a => taskKey a <> "" /\ taskKey a ∉ seen) l ->
  NoDup (map taskKey l) ->
  keepFirstSeen seen (map Some l) = l.
Proof.
  induction l as [| a l IH]; intros seen Hall Hnodup; [reflexivity |].
  cbn [map] in *. rewrite keepFirstSeen_Some.
  apply Forall_cons in Hall. destruct Hall as [[Hne Hnotin] Hall].
  apply NoDup_cons in Hnodup. destruct Hnodup as [Hfresh Hnodup].
  destruct (decide _) as [Hdrop | _]; [tauto |].
  f_equal. apply IH; [| exact Hnodup].
  rewrite Forall_forall in Hall |- *. intros b Hb.
  destruct (Hall b Hb) as [Hbne Hbnot]. split; [exact Hbne |].
  rewrite elem_of_union, elem_of_singleton. intros [Heq | Hin]; [| tauto].
  apply Hfresh. rewrite <- Heq. now apply elem_of_map_taskKey.
Qed.

(** C8. Normalizing a normalized list changes nothing. *)
Theorem normalizeActions_idempotent (value : option JValue) :
  normalizeActions (Some (actionsToJS (normalizeActions value)))
  = normalizeActions value.
Proof.
  destruct (normalizeActions_keys value) as [Hne Hnodup].
  unfold actionsToJS. cbn [normalizeActions].
  rewrite map_toActionItem_actionToJS.
  apply keepFirstSeen_fixed; [| exact Hnodup].
  eapply Forall_impl; [exact Hne |].
  intros a Ha. split; [exact Ha | apply not_elem_of_empty].
Qed.

End Normalizer.

(** Of two candidates that differ in case, spacing and punctuation only,
    the first is kept. *)
Lemma normalizeActions_first_seen_witness :
  AsciiLaws asciiHost
  /\ @normalizeActions asciiHost twiceTheSame = [readPaper]
  /\ @taskKey asciiHost readPaper = "read one paper 2nd"
  /\ @taskKey asciiHost readPaperAgain = "read one paper 2nd".
Proof.
  destruct (@normalizeActions_first_seen asciiHost twiceTheSame)
    as (Hspec & _ & _ & _ & _ & _ & Hkey).
  split; [exact asciiHost_laws |].
  split; [rewrite Hspec; vm_compute; reflexivity |].
  split; rewrite (Hkey asciiHost_laws); reflexivity.
Defined.

(** ** Resistance classifier and suggestion engine *)

Section Classifier.

Context `{engine : StringHost}.

Lemma matchesAt_Alt (a b : Regex.regex) (s : string) :
  Regex.matchesAt (Regex.Alt a b) s = Regex.matchesAt a s || Regex.matchesAt b s.
Proof.
  unfold Regex.matchesAt. cbn [Regex.rests].
  destruct (Regex.rests a s); reflexivity.
Qed.

Lemma matchesAt_Lit (p s : string) :
  Regex.matchesAt (Regex.Lit p) s = bool_decide (is_Some (JS.stripPrefix p s)).
Proof.
  unfold Regex.matchesAt. cbn [Regex.rests].
  destruct (JS.stripPrefix p s) as [t |].
  - symmetry. apply bool_decide_eq_true_2. now exists t.
  - symmetry. apply bool_decide_eq_false_2. intros [t Ht]. discriminate.
Qed.

Lemma matchesAt_oneOf (ps : list string) (s : string) :
  Regex.matchesAt (Regex.oneOf ps) s
  = existsb (fun p => bool_decide (is_Some (JS.stripPrefix p s))) ps.
Proof.
  induction ps as [| p ps IH]; [reflexivity |].
  cbn [Regex.oneOf fold_right existsb].
  change (fold_right (fun p r => Regex.Alt (Regex.Lit p) r) Regex.Never ps)
    with (Regex.oneOf ps).
  now rewrite matchesAt_Alt, matchesAt_Lit, IH.
Qed.

Lemma existsb_swap {A B : Type} (f : A -> B -> bool) (la : list A) (lb : list B) :
  existsb (fun a => existsb (f a) lb) la = existsb (fun b => existsb (fun a => f a b) la) lb.
Proof.
  apply eq_true_iff_eq. rewrite !existsb_exists. split.
  - intros (a & Ha & Hex). apply existsb_exists in Hex. destruct Hex as (b & Hb & Hf).
    exists b. split; [exact Hb |]. apply existsb_exists. now exists a.
  - intros (b & Hb & Hex). apply existsb_exists in Hex. destruct Hex as (a & Ha & Hf).
    exists a. split; [exact Ha |]. apply existsb_exists. now exists b.
Qed.

Lemma existsb_pointwise {A : Type} (f g : A -> bool) (l : list A) :
  (forall a, f a = g a) -> existsb f l = existsb g l.
Proof.
  intros Hfg. induction l as [| a l IH]; cbn; [reflexivity |].
  now rewrite Hfg, IH.
Qed.

(** A search for an alternation of phrases finds a match exactly when
    [includes] finds one of the phrases in the text. *)
Lemma test_oneOf (ps : list string) (text : string) :
  Regex.test (Regex.oneOf ps) text = existsb (fun p => JS.includes p text) ps.
Proof.
  unfold Regex.test, JS.includes.
  rewrite <- (existsb_swap
                (fun t p => bool_decide (is_Some (JS.stripPrefix p t)))
                (JS.suffixes text) ps).
  apply existsb_pointwise. intros t. apply matchesAt_oneOf.
Qed.

Lemma stripPrefix_Some (p : string) : forall s rest : string,
  JS.stripPrefix p s = Some rest <-> s = p ++ rest.
Proof.
  induction p as [| a p IH]; intros s rest.
  - change ("" ++ rest) with rest. destruct s; cbn [JS.stripPrefix]; split; congruence.
  - change (String a p ++ rest) with (String a (p ++ rest)).
    destruct s as [| b s]; cbn [JS.stripPrefix]; [split; discriminate |].
    destruct (Ascii.eqb a b) eqn:Hab.
    + apply Ascii.eqb_eq in Hab. subst b. rewrite IH. split; congruence.
    + split; [discriminate |]. intros [= Hb _]. subst b.
      rewrite Ascii.eqb_refl in Hab. discriminate.
Qed.

Lemma In_suffixes (s : string) : forall t : string,
  In t (JS.suffixes s) <-> exists before : string, s = before ++ t.
Proof.
  induction s as [| c s IH]; intros t; cbn [JS.suffixes In].
  - split.
    + intros [<- | []]. now exists "".
    + intros [[| b before] Hb]; [now left | discriminate].
  - split.
    + intros [<- | Hin]; [now exists "" |].
      apply IH in Hin. destruct Hin as [before ->]. now exists (String c before).
    + intros [[| b before] Hb]; [now left |].
      change (String b before ++ t) with (String b (before ++ t)) in Hb.
      injection Hb as -> ->. right. apply IH. now exists before.
Qed.

(** [includes] finds a phrase exactly where the phrase occurs. *)
Lemma includes_occursIn (phrase text : string) :
  JS.includes phrase text = true <-> occursIn text phrase.
Proof.
  unfold JS.includes, occursIn. rewrite existsb_exists. split.
  - intros (t & Hin & Hmatch). apply bool_decide_eq_true_1 in Hmatch.
    destruct Hmatch as [after Hafter].
    apply In_suffixes in Hin. destruct Hin as [before ->].
    apply stripPrefix_Some in Hafter. subst t. now exists before, after.
  - intros (before & after & ->). exists (phrase ++ after). split.
    + apply In_suffixes. now exists before.
    + apply bool_decide_eq_true_2. exists after. now apply stripPrefix_Some.
Qed.

Lemma matchesCategory_recognizes (text : string) (category : Resistance)
    (phrases : list string) :
  matchesCategory text (category, phrases) = true <-> recognizes text phrases.
Proof.
  unfold matchesCategory, recognizes. cbn [snd]. rewrite existsb_exists.
  split; intros (phrase & Hin & Hocc); exists phrase; (split; [exact Hin |]);
    now apply includes_occursIn.
Qed.

(** The function and the relation say the same. *)
Lemma firstMatching_firstMatch (text : string) (order : list (Resistance * list string)) :
  forall answer : Resistance,
    firstMatch text order answer <-> answer = firstMatching text order.
Proof.
  unfold firstMatching.
  induction order as [| [category phrases] order IH]; intros answer; cbn [List.find].
  - split; [now inversion 1 | intros ->; constructor].
  - destruct (matchesCategory text (category, phrases)) eqn:Hm.
    + apply matchesCategory_recognizes in Hm. split.
      * inversion 1; subst; [reflexivity | contradiction].
      * intros ->. now constructor.
    + assert (Hno : ~ recognizes text phrases).
      { intros Hyes. apply (matchesCategory_recognizes text category) in Hyes. congruence. }
      split.
      * inversion 1; subst; [contradiction | now apply IH].
      * intros ->. apply firstMatch_later; [exact Hno | now apply IH].
Qed.

Lemma detectResistance_classifySpec (goal blocker : string) :
  detectResistance goal blocker = classifySpec (toLowerCase (goal ++ " " ++ blocker)).
Proof.
  unfold detectResistance, joinWithSpace.
  set (text := toLowerCase (goal ++ " " ++ blocker)).
  rewrite !test_oneOf.
  unfold classifySpec, firstMatching, priorityOrder, matchesCategory.
  cbn [List.find snd].
  unfold ambiguityPhrases, overwhelmPhrases, anxietyPhrases, inertiaPhrases,
    perfectionismPhrases.
  repeat (destruct (existsb _ _); [reflexivity |]).
  reflexivity.
Qed.

Lemma lowerASCII_app (a b : string) :
  JS.lowerASCII (a ++ b) = JS.lowerASCII a ++ JS.lowerASCII b.
Proof.
  induction a as [| c a IH]; [reflexivity |].
  change (String c a ++ b) with (String c (a ++ b)).
  cbn [JS.lowerASCII]. rewrite IH. reflexivity.
Qed.

Lemma isAscii_app (a b : string) :
  JS.isAscii (a ++ b) = JS.isAscii a && JS.isAscii b.
Proof.
  induction a as [| c a IH]; [reflexivity |].
  change (String c a ++ b) with (String c (a ++ b)).
  cbn [JS.isAscii]. rewrite IH. now rewrite andb_assoc.
Qed.

(** On ASCII input, the text searched is the goal and the blocker with
    their capitals made small, one space between them. *)
Lemma toLowerCase_join (goal blocker : string) :
  AsciiLaws engine ->
  JS.isAscii goal = true -> JS.isAscii blocker = true ->
  toLowerCase (goal ++ " " ++ blocker) = JS.lowerASCII goal ++ " " ++ JS.lowerASCII blocker.
Proof.
  intros Hlaws Hg Hb.
  rewrite (toLowerCase_ascii engine Hlaws).
  - now rewrite !lowerASCII_app.
  - rewrite !isAscii_app, Hg, Hb. reflexivity.
Qed.

(** C6. [detectResistance] is a function of its two strings. It looks at
    one text, the goal, a space and the blocker, lower-cased; it tries the
    categories in the order ambiguity, overwhelm, anxiety, inertia,
    perfectionism, answers the first one a phrase of which occurs in that
    text, and answers [default] when none does. Two inputs with the same
    lower-cased text get the same answer; for ASCII inputs that is so
    whenever they differ in upper and lower case only. *)
Theorem detectResistance_priority (goal blocker : string) :
  let text := toLowerCase (goal ++ " " ++ blocker) in
  detectResistance goal blocker = classifySpec text
  /\ firstMatch text
       [ (ambiguity, ambiguityPhrases); (overwhelm, overwhelmPhrases);
         (anxiety, anxietyPhrases); (inertia, inertiaPhrases);
         (perfectionism, perfectionismPhrases) ]
       (detectResistance goal blocker)
  /\ (forall answer : Resistance,
        firstMatch text priorityOrder answer -> answer = detectResistance goal blocker)
  /\ (forall goal' blocker' : string,
        toLowerCase (goal' ++ " " ++ blocker') = text ->
        detectResistance goal' blocker' = detectResistance goal blocker)
  /\ (AsciiLaws engine ->
      JS.isAscii goal = true -> JS.isAscii blocker = true ->
      text = JS.lowerASCII goal ++ " " ++ JS.lowerASCII blocker
      /\ forall goal' blocker' : string,
           JS.isAscii goal' = true -> JS.isAscii blocker' = true ->
           JS.lowerASCII goal' = JS.lowerASCII goal ->
           JS.lowerASCII blocker' = JS.lowerASCII blocker ->
           detectResistance goal' blocker' = detectResistance goal blocker).
Proof.
  intros text.
  pose proof (detectResistance_classifySpec goal blocker) as Hspec. fold text in Hspec.
  split; [exact Hspec |].
  split; [apply firstMatching_firstMatch; exact Hspec |].
  split; [intros answer Hfirst; apply firstMatching_firstMatch in Hfirst;
          now rewrite Hspec |].
  split.
  - intros goal' blocker' Htext.
    now rewrite Hspec, detectResistance_classifySpec, Htext.
  - intros Hlaws Hg Hb.
    split; [now apply toLowerCase_join |].
    intros goal' blocker' Hg' Hb' Hgoal Hblocker.
    rewrite Hspec, detectResistance_classifySpec. unfold text.
    rewrite !toLowerCase_join by assumption. now rewrite Hgoal, Hblocker.
Qed.

Lemma isAscii_trimStart (s : string) :
  JS.isAscii s = true -> JS.isAscii (JS.trimStart s) = true.
Proof.
  induction s as [| c s IH]; [reflexivity |]. intros Hs.
  cbn [JS.trimStart]. destruct (JS.isWhiteSpace c); [| exact Hs].
  apply IH. cbn [JS.isAscii] in Hs. now apply andb_prop in Hs.
Qed.

Lemma isAscii_trimEnd (s : string) :
  JS.isAscii s = true -> JS.isAscii (JS.trimEnd s) = true.
Proof.
  induction s as [| c s IH]; [reflexivity |]. intros Hs.
  cbn [JS.isAscii] in Hs. apply andb_prop in Hs. destruct Hs as [Hc Hs].
  cbn [JS.trimEnd]. specialize (IH Hs).
  destruct (JS.trimEnd s) as [| d rest].
  - destruct (JS.isWhiteSpace c); [reflexivity |]. cbn [JS.isAscii]. now rewrite Hc.
  - cbn [JS.isAscii] in *. now rewrite Hc, IH.
Qed.

Lemma isAscii_trim (s : string) : JS.isAscii s = true -> JS.isAscii (JS.trim s) = true.
Proof. intros Hs. unfold JS.trim. now apply isAscii_trimEnd, isAscii_trimStart. Qed.

Lemma isAscii_orElse (s fallback : string) :
  JS.isAscii s = true -> JS.isAscii fallback = true ->
  JS.isAscii (JS.orElse s fallback) = true.
Proof. intros Hs Hf. now destruct s. Qed.

(** On ASCII input every engine gives the suggestions the ASCII engine
    gives. *)
Lemma detectResistance_ascii (goal blocker : string) :
  AsciiLaws engine ->
  JS.isAscii goal = true -> JS.isAscii blocker = true ->
  detectResistance goal blocker = @detectResistance asciiHost goal blocker.
Proof.
  intros Hlaws Hg Hb. unfold detectResistance, joinWithSpace.
  rewrite (toLowerCase_ascii engine Hlaws)
    by (rewrite !isAscii_app, Hg, Hb; reflexivity).
  reflexivity.
Qed.

Lemma buildSuggestedTasks_ascii (goal problem : string) :
  AsciiLaws engine ->
  JS.isAscii goal = true -> JS.isAscii problem = true ->
  buildSuggestedTasks goal problem = @buildSuggestedTasks asciiHost goal problem.
Proof.
  intros Hlaws Hg Hp. unfold buildSuggestedTasks.
  rewrite !(trim_ascii engine Hlaws) by assumption.
  cbn [trim asciiHost].
  assert (Hcg : JS.isAscii (JS.orElse (JS.trim goal) "your main phd goal") = true)
    by (apply isAscii_orElse; [now apply isAscii_trim | reflexivity]).
  assert (Hcp : JS.isAscii (JS.orElse (JS.trim problem) "starting feels hard") = true)
    by (apply isAscii_orElse; [now apply isAscii_trim | reflexivity]).
  rewrite (detectResistance_ascii _ _ Hlaws Hcg Hcp).
  unfold joinWithSpace.
  rewrite (toLowerCase_ascii engine Hlaws)
    by (rewrite !isAscii_app, Hcg, Hcp; reflexivity).
  reflexivity.
Qed.

Lemma In_existsb_eqb (x : string) (l : list string) :
  In x l -> existsb (String.eqb x) l = true.
Proof.
  intros Hin. apply existsb_exists. exists x. split; [exact Hin | apply String.eqb_refl].
Qed.

(** The task that adds exactly one sentence is the inertia phrasing of the
    second core slot and of no other slot. *)
Lemma tenMinuteInertia_only_for_inertia (goal problem : string) :
  In tenMinuteInertia (buildSuggestedTasks goal problem) ->
  detectResistance (JS.orElse (trim goal) "your main phd goal")
                   (JS.orElse (trim problem) "starting feels hard") = inertia.
Proof.
  intros Hin. apply In_existsb_eqb in Hin. revert Hin.
  unfold buildSuggestedTasks.
  generalize (detectResistance (JS.orElse (trim goal) "your main phd goal")
                (JS.orElse (trim problem) "starting feels hard")).
  generalize (toLowerCase
                (joinWithSpace (JS.orElse (trim goal) "your main phd goal")
                   (JS.orElse (trim problem) "starting feels hard"))).
  intros text resistance.
  destruct (Regex.test roomPattern text), (Regex.test sourdoughPattern text),
    (Regex.test paperPattern text), (Regex.test editingFiguresPattern text),
    (Regex.test discussionPattern text), (Regex.test resultsPattern text),
    (Regex.test projectPattern text), resistance;
    vm_compute; congruence.
Qed.

End Classifier.

(** C6 at work: a worry in capitals is the worry. *)
Lemma detectResistance_priority_witness :
  AsciiLaws asciiHost
  /\ JS.isAscii "thesis" = true /\ JS.isAscii quietBlocker = true
  /\ @detectResistance asciiHost "Thesis" shoutedBlocker
     = @detectResistance asciiHost "thesis" quietBlocker
  /\ @detectResistance asciiHost "thesis" quietBlocker = anxiety.
Proof.
  destruct (@detectResistance_priority asciiHost "thesis" quietBlocker)
    as (Hspec & _ & _ & _ & Hcase).
  destruct (Hcase asciiHost_laws eq_refl eq_refl) as [_ Hcase'].
  split; [exact asciiHost_laws |].
  split; [reflexivity |]. split; [reflexivity |].
  split; [apply Hcase'; reflexivity |].
  rewrite Hspec. vm_compute. reflexivity.
Defined.

(** The scenario of C5 does not come out as [inertia]. Its goal and
    blocker name no phrase of any category: under no engine does the
    classifier answer [inertia], and the suggestions carry no task phrased
    as adding exactly one sentence. *)
Lemma scenario_not_inertia :
  ~ (exists engine : StringHost,
       AsciiLaws engine
       /\ detectResistance scenarioGoal scenarioBlocker = inertia
       /\ In openingDesk (buildSuggestedTasks scenarioGoal scenarioBlocker)
       /\ In tenMinuteInertia (buildSuggestedTasks scenarioGoal scenarioBlocker)).
Proof.
  intros (engine & Hlaws & Hclass & _).
  rewrite (detectResistance_ascii scenarioGoal scenarioBlocker Hlaws eq_refl eq_refl) in Hclass.
  vm_compute in Hclass. discriminate.
Qed.

(** C5, amended. For the goal "finish methods section draft" and the
    blocker "i overthink and delay starting" the classifier answers
    [default]; the six suggestions open with the desk-clearing task boxed
    at 4 minutes, and their 10-minute task is the one that finishes one
    paragraph, not the one that adds exactly one sentence. For every goal
    and blocker, the suggestions have the task that adds exactly one
    sentence only when the classifier, given the trimmed goal and blocker
    with their placeholders, answers [inertia]. *)
Theorem scenario_suggestions `{engine : StringHost} :
  AsciiLaws engine ->
  detectResistance scenarioGoal scenarioBlocker = default
  /\ buildSuggestedTasks scenarioGoal scenarioBlocker =
       [ openingDesk;
         "Open the file you need and set up only the tools you need in 3 minutes.";
         "Outline the next 3 steps for your project in bullet points for 8 minutes only.";
         "Stand up, get water, and come back to your desk in 3 minutes.";
         tenMinuteDefault;
         "Save your document, close the file, and write one line for your next action in 2 minutes." ]
  /\ List.hd_error (buildSuggestedTasks scenarioGoal scenarioBlocker) = Some openingDesk
  /\ JS.includes "for 4 minutes" openingDesk = true
  /\ In tenMinuteDefault (buildSuggestedTasks scenarioGoal scenarioBlocker)
  /\ ~ In tenMinuteInertia (buildSuggestedTasks scenarioGoal scenarioBlocker)
  /\ (forall goal problem : string,
        In tenMinuteInertia (buildSuggestedTasks goal problem) ->
        detectResistance (JS.orElse (trim goal) "your main phd goal")
                         (JS.orElse (trim problem) "starting feels hard") = inertia).
Proof.
  intros Hlaws.
  assert (Htasks : buildSuggestedTasks scenarioGoal scenarioBlocker =
       [ openingDesk;
         "Open the file you need and set up only the tools you need in 3 minutes.";
         "Outline the next 3 steps for your project in bullet points for 8 minutes only.";
         "Stand up, get water, and come back to your desk in 3 minutes.";
         tenMinuteDefault;
         "Save your document, close the file, and write one line for your next action in 2 minutes." ]).
  { rewrite (buildSuggestedTasks_ascii scenarioGoal scenarioBlocker Hlaws eq_refl eq_refl).
    vm_compute. reflexivity. }
  split.
  { rewrite (detectResistance_ascii scenarioGoal scenarioBlocker Hlaws eq_refl eq_refl). vm_compute. reflexivity. }
  split; [exact Htasks |].
  rewrite Htasks.
  split; [reflexivity |].
  split; [vm_compute; reflexivity |].
  split; [cbn [In]; tauto |].
  split.
  - cbn [In]. intros Hin.
    repeat (destruct Hin as [Heq | Hin]; [vm_compute in Heq; discriminate |]).
    exact Hin.
  - intros goal problem. apply tenMinuteInertia_only_for_inertia.
Qed.

Lemma scenario_suggestions_witness :
  AsciiLaws asciiHost
  /\ @detectResistance asciiHost scenarioGoal scenarioBlocker = default
  /\ nth_error (@buildSuggestedTasks asciiHost scenarioGoal scenarioBlocker) 4
     = Some tenMinuteDefault.
Proof.
  destruct (@scenario_suggestions asciiHost asciiHost_laws) as (Hclass & Htasks & _).
  split; [exact asciiHost_laws |].
  split; [exact Hclass |].
  rewrite Htasks. reflexivity.
Defined.

(** Where the classifier does answer [inertia], and neither a results
    topic nor a figure-editing topic is named, the fifth suggestion is the
    one that adds exactly one sentence. *)
Lemma inertia_blocker_suggestions :
  @detectResistance asciiHost scenarioGoal "i keep putting off starting" = inertia
  /\ nth_error (@buildSuggestedTasks asciiHost scenarioGoal "i keep putting off starting") 4
     = Some tenMinuteInertia.
Proof. split; vm_compute; reflexivity. Qed.

(** ** Streak calculator *)

Section Streak.

Lemma steps_add {S R : Type} (body : S -> S + R) (a b : nat) : forall s : S,
  steps (a + b) body s =
  match steps a body s with
  | inl s' => steps b body s'
  | inr r => inr r
  end.
Proof.
  induction a as [| a IH]; intros s; [reflexivity |].
  cbn [Nat.add steps]. destruct (body s) as [s' | r]; [apply IH | reflexivity].
Qed.

Lemma loopFor_steps {S R : Type} (body : S -> S + R) (n : nat) : forall s : S,
  loopFor n body s = steps (2 ^ n) body s.
Proof.
  induction n as [| n IH]; intros s.
  - cbn. destruct (body s); reflexivity.
  - cbn [loopFor]. replace (2 ^ Datatypes.S n)%nat with (2 ^ n + 2 ^ n)%nat
      by (cbn [Nat.pow]; lia).
    rewrite steps_add, IH. destruct (steps (2 ^ n) body s) as [s' | r];
      [apply IH | reflexivity].
Qed.

(** A loop that has left stays left however many more turns it is given. *)
Lemma steps_left {S R : Type} (body : S -> S + R) (a b : nat) (s : S) (r : R) :
  steps a body s = inr r -> (a <= b)%nat -> steps b body s = inr r.
Proof.
  intros Hleft Hle. replace b with (a + (b - a))%nat by lia.
  now rewrite steps_add, Hleft.
Qed.

Lemma elem_of_fold_dates (dates : list string) : forall (days : gset string) (key : string),
  key ∈ fold_left (fun days' day => {[day]} ∪ days') dates days
  <-> key ∈ days \/ key ∈ dates.
Proof.
  induction dates as [| d dates IH]; intros days key; cbn [fold_left].
  - rewrite elem_of_nil. tauto.
  - rewrite IH, elem_of_union, elem_of_singleton, elem_of_cons. intuition congruence.
Qed.

Lemma elem_of_fold_actions (actions : list ActionItem) :
  forall (days : gset string) (key : string),
  key ∈ fold_left
          (fun days action =>
             fold_left (fun days' day => {[day]} ∪ days') (completedDates action) days)
          actions days
  <-> key ∈ days \/ completedOn actions key.
Proof.
  unfold completedOn.
  induction actions as [| a actions IH]; intros days key; cbn [fold_left].
  - split; [now left |]. intros [H | (x & Hx & _)]; [exact H |].
    now apply elem_of_nil in Hx.
  - rewrite IH, elem_of_fold_dates. split.
    + intros [[H | H] | (x & Hx & Hk)].
      * now left.
      * right. exists a. split; [apply elem_of_cons; now left | exact H].
      * right. exists x. split; [apply elem_of_cons; now right | exact Hk].
    + intros [H | (x & Hx & Hk)]; [now left; left |].
      apply elem_of_cons in Hx. destruct Hx as [-> | Hx].
      * left. now right.
      * right. now exists x.
Qed.

(** The set the loop consults is the union of the completion dates of all
    actions. *)
Lemma elem_of_daysWithCompletion (actions : list ActionItem) (key : string) :
  key ∈ daysWithCompletion actions <-> completedOn actions key.
Proof.
  unfold daysWithCompletion. rewrite elem_of_fold_actions.
  split; [| now right]. intros [H | H]; [| exact H].
  now apply elem_of_empty in H.
Qed.

Lemma timeClip_Some (t : Z) : Z.abs t <= JSDate.maxTime -> JSDate.timeClip t = Some t.
Proof. intros H. unfold JSDate.timeClip. now rewrite (proj2 (Z.leb_le _ _) H). Qed.

Lemma timeClip_inv (t u : Z) :
  JSDate.timeClip t = Some u -> u = t /\ Z.abs t <= JSDate.maxTime.
Proof.
  unfold JSDate.timeClip. destruct (Z.leb_spec (Z.abs t) JSDate.maxTime); [| discriminate].
  intros [= <-]. now split.
Qed.

(** The key of a time value is the key of its UTC day. *)
Lemma key_of_time (t : Z) :
  JS.slice0 10 (JSDate.isoDate t) = dayKey (t / JSDate.msPerDay).
Proof.
  unfold dayKey, JSDate.isoDate.
  now rewrite Z.div_mul by (unfold JSDate.msPerDay; lia).
Qed.

(** From a valid cursor on UTC day [day0], with the [k] days back from
    [day0] in the set and the next one missing, the loop leaves after
    [k + 1] turns with the streak raised by [k]. *)
Lemma steps_streak (days : gset string) (k : nat) : forall (t : Z) (n : nat),
  (forall i : Z, 0 <= i <= Z.of_nat k -> Z.abs (t - i * JSDate.msPerDay) <= JSDate.maxTime) ->
  (forall i : Z, 0 <= i < Z.of_nat k -> dayKey (t / JSDate.msPerDay - i) ∈ days) ->
  dayKey (t / JSDate.msPerDay - Z.of_nat k) ∉ days ->
  steps (Datatypes.S k) (streakBody days) (Some t, n) = inr (Normal (n + k)%nat).
Proof.
  induction k as [| k IH]; intros t n Hvalid Hin Hout.
  - cbn [steps streakBody JSDate.toISOStringSlice10]. rewrite key_of_time.
    rewrite Z.sub_0_r in Hout. rewrite (bool_decide_eq_false_2 _ Hout).
    now rewrite Nat.add_0_r.
  - cbn [steps streakBody JSDate.toISOStringSlice10]. rewrite key_of_time.
    assert (H0 : dayKey (t / JSDate.msPerDay) ∈ days).
    { specialize (Hin 0). rewrite Z.sub_0_r in Hin. apply Hin. lia. }
    rewrite (bool_decide_eq_true_2 _ H0). cbn [JSDate.setDatePrev].
    assert (Hclip : JSDate.timeClip (t - JSDate.msPerDay) = Some (t - JSDate.msPerDay)).
    { apply timeClip_Some. specialize (Hvalid 1). rewrite Z.mul_1_l in Hvalid.
      apply Hvalid. lia. }
    rewrite Hclip.
    assert (Hday : (t - JSDate.msPerDay) / JSDate.msPerDay = t / JSDate.msPerDay - 1).
    { replace (t - JSDate.msPerDay) with (t + (-1) * JSDate.msPerDay) by lia.
      rewrite Z.div_add by (unfold JSDate.msPerDay; lia). lia. }
    replace (n + Datatypes.S k)%nat with (Datatypes.S n + k)%nat by lia.
    apply IH.
    + intros i Hi. replace (t - JSDate.msPerDay - i * JSDate.msPerDay)
        with (t - (i + 1) * JSDate.msPerDay) by lia.
      apply Hvalid. lia.
    + intros i Hi. rewrite Hday.
      replace (t / JSDate.msPerDay - 1 - i) with (t / JSDate.msPerDay - (i + 1)) by lia.
      apply Hin. lia.
    + rewrite Hday.
      replace (t / JSDate.msPerDay - 1 - Z.of_nat k)
        with (t / JSDate.msPerDay - Z.of_nat (Datatypes.S k)) by lia.
      exact Hout.
Qed.

Lemma turns_in_Z : Z.of_nat (2 ^ streakTurns) = 268435456.
Proof. unfold streakTurns. rewrite Nat2Z.inj_pow. reflexivity. Qed.

(** While the loop goes on, the cursor moves back one day a turn and has
    stayed inside the range of [Date]. *)
Lemma steps_running (days : gset string) (j : nat) :
  forall (t : Z) (n : nat) (c : option Z) (n' : nat),
  steps (Datatypes.S j) (streakBody days) (Some t, n) = inl (c, n') ->
  c = JSDate.timeClip (t - Z.of_nat (Datatypes.S j) * JSDate.msPerDay)
  /\ (forall i : Z, 1 <= i <= Z.of_nat j ->
        Z.abs (t - i * JSDate.msPerDay) <= JSDate.maxTime).
Proof.
  induction j as [| j IH]; intros t n c n' Hrun.
  - cbn [steps streakBody JSDate.toISOStringSlice10] in Hrun.
    destruct (bool_decide _); [| discriminate].
    cbn [JSDate.setDatePrev] in Hrun. injection Hrun as <- _.
    split; [f_equal; lia | intros i Hi; lia].
  - cbn [steps] in Hrun.
    cbn [streakBody JSDate.toISOStringSlice10] in Hrun.
    destruct (bool_decide _); [| discriminate].
    cbn [JSDate.setDatePrev] in Hrun.
    destruct (JSDate.timeClip (t - JSDate.msPerDay)) as [t' |] eqn:Hclip.
    + apply timeClip_inv in Hclip. destruct Hclip as [-> Hvalid].
      apply IH in Hrun. destruct Hrun as [-> Hrest].
      split; [f_equal; lia |].
      intros i Hi. destruct (Z.eq_dec i 1) as [-> | Hne].
      * now rewrite Z.mul_1_l.
      * replace (t - i * JSDate.msPerDay)
          with (t - JSDate.msPerDay - (i - 1) * JSDate.msPerDay) by lia.
        apply Hrest. lia.
    + cbn [steps streakBody JSDate.toISOStringSlice10] in Hrun. discriminate.
Qed.

(** The loop of [getCurrentStreak] has left within [2 ^ streakTurns]
    turns: the function always returns or throws. *)
Lemma getCurrentStreak_total (tz : Z) (actions : list ActionItem) (todayKey : string) :
  exists result : completion nat, getCurrentStreak tz actions todayKey = Some result.
Proof.
  unfold getCurrentStreak. rewrite loopFor_steps.
  pose proof turns_in_Z as Hturns.
  destruct (2 ^ streakTurns)%nat as [| j] eqn:Hj; [cbn in Hturns; lia |].
  clear Hj.
  destruct (JSDate.localMidnight tz todayKey) as [t |].
  - destruct (steps (Datatypes.S j) (streakBody (daysWithCompletion actions)) (Some t, 0%nat))
      as [[c n'] | result] eqn:Hrun; [| now exists result].
    exfalso. apply steps_running in Hrun. destruct Hrun as [_ Hvalid].
    pose proof (Hvalid 1 ltac:(lia)) as H1.
    pose proof (Hvalid (Z.of_nat j) ltac:(lia)) as Hlast.
    unfold JSDate.msPerDay, JSDate.maxTime in *. lia.
  - exists (Throw RangeError). reflexivity.
Qed.

Lemma zoneShift_west (tz : Z) : -1440 < tz <= 0 -> zoneShift tz = 0.
Proof.
  intros Htz. unfold zoneShift, JSDate.msPerMinute, JSDate.msPerDay.
  apply Z.div_small. lia.
Qed.

Lemma zoneShift_east (tz : Z) : 0 < tz <= 1440 -> zoneShift tz = -1.
Proof.
  intros Htz. unfold zoneShift, JSDate.msPerMinute, JSDate.msPerDay.
  symmetry. apply (Z.div_unique_pos _ _ _ (86400000 - tz * 60000)); lia.
Qed.

Lemma digitVal_range (c : ascii) (d : Z) : Num.digitVal c = Some d -> 0 <= d <= 9.
Proof.
  unfold Num.digitVal, JS.isDigit.
  destruct (_ && _) eqn:Hdigit; [| discriminate]. intros [= <-].
  apply andb_true_iff in Hdigit. destruct Hdigit as [Hlo Hhi].
  apply Nat.leb_le in Hlo, Hhi. lia.
Qed.

Lemma readFixed_range (n : nat) : forall (acc : Z) (s r : string) (v : Z),
  JSDate.readFixed n acc s = Some (v, r) ->
  acc * 10 ^ Z.of_nat n <= v < (acc + 1) * 10 ^ Z.of_nat n.
Proof.
  induction n as [| n IH]; intros acc s r v Hread.
  - cbn in Hread. injection Hread as <- _. cbn. lia.
  - cbn [JSDate.readFixed] in Hread. destruct s as [| c s]; [discriminate |].
    destruct (Num.digitVal c) as [d |] eqn:Hd; [| discriminate].
    apply digitVal_range in Hd. apply IH in Hread.
    rewrite Nat2Z.inj_succ, Z.pow_succ_r by lia.
    assert (Hpos : 0 < 10 ^ Z.of_nat n) by (apply Z.pow_pos_nonneg; lia).
    nia.
Qed.

Lemma daysInMonth_le (y m : Z) : JSDate.daysInMonth y m <= 31.
Proof.
  unfold JSDate.daysInMonth.
  destruct (m =? 2); [destruct (JSDate.isLeapYear y); lia |].
  destruct (_ || _); lia.
Qed.

(** A key that names a date names one of the years 0 to 9999. *)
Lemma parseDateKey_range (key : string) (day : Z) :
  JSDate.parseDateKey key = Some day -> -719528 <= day <= 2932896.
Proof.
  unfold JSDate.parseDateKey.
  destruct (JSDate.readFixed 4 0 key) as [[y r1] |] eqn:Hy; [| discriminate].
  destruct r1 as [| c1 r1]; [discriminate |].
  destruct (Ascii.eqb_spec c1 "-"); [subst c1 | destruct c1 as [[] [] [] [] [] [] [] []]; discriminate || contradiction].
  destruct (JSDate.readFixed 2 0 r1) as [[m r2] |] eqn:Hm; [| discriminate].
  destruct r2 as [| c2 r2]; [discriminate |].
  destruct (Ascii.eqb_spec c2 "-"); [subst c2 | destruct c2 as [[] [] [] [] [] [] [] []]; discriminate || contradiction].
  destruct (JSDate.readFixed 2 0 r2) as [[d r3] |] eqn:Hd; [| discriminate].
  destruct r3; [| discriminate].
  destruct (_ && _) eqn:Hguard; [| discriminate].
  intros [= <-].
  apply readFixed_range in Hy. cbn in Hy.
  repeat (apply andb_true_iff in Hguard; destruct Hguard as [Hguard ?]).
  pose proof (daysInMonth_le y m).
  unfold JSDate.daysFromCivil.
  destruct (Z.leb_spec m 2); destruct (Z.ltb_spec 2 m); try lia;
    Z.div_mod_to_equations; lia.
Qed.

Lemma localMidnight_value (tz : Z) (todayKey : string) (day : Z) :
  -1440 < tz < 1440 ->
  JSDate.parseDateKey todayKey = Some day ->
  JSDate.localMidnight tz todayKey
  = Some (day * JSDate.msPerDay - tz * JSDate.msPerMinute)
  /\ (day * JSDate.msPerDay - tz * JSDate.msPerMinute) / JSDate.msPerDay
     = day + zoneShift tz.
Proof.
  intros Htz Hparse. unfold JSDate.localMidnight. rewrite Hparse.
  apply parseDateKey_range in Hparse. split.
  - apply timeClip_Some. unfold JSDate.msPerDay, JSDate.msPerMinute, JSDate.maxTime. lia.
  - unfold zoneShift.
    replace (day * JSDate.msPerDay - tz * JSDate.msPerMinute)
      with (day * JSDate.msPerDay + - (tz * JSDate.msPerMinute)) by lia.
    apply Z.div_add_l. unfold JSDate.msPerDay. lia.
Qed.

(** What [getCurrentStreak] counts in a zone [tz]: the run of days with a
    completion that ends on the UTC day of local midnight, which is the day
    of [todayKey] moved by [zoneShift tz]. *)
Lemma getCurrentStreak_counts
  (tz : Z) (actions : list ActionItem) (todayKey : string) (day : Z) (k : nat) :
  -1440 < tz < 1440 ->
  JSDate.parseDateKey todayKey = Some day ->
  Z.of_nat k <= 99000000 ->
  (forall i : Z, 0 <= i < Z.of_nat k ->
     completedOn actions (dayKey (day + zoneShift tz - i))) ->
  ~ completedOn actions (dayKey (day + zoneShift tz - Z.of_nat k)) ->
  getCurrentStreak tz actions todayKey = Some (Normal k).
Proof.
  intros Htz Hparse Hk Hin Hout.
  destruct (localMidnight_value tz todayKey day Htz Hparse) as [Hstart Hday].
  apply parseDateKey_range in Hparse.
  unfold getCurrentStreak. rewrite Hstart, loopFor_steps.
  rewrite (steps_left _ (Datatypes.S k) _ _ (Normal k)); [reflexivity | |].
  - change (Normal k) with (@Normal nat (0 + k)%nat).
    apply steps_streak.
    + intros i Hi. unfold JSDate.msPerDay, JSDate.msPerMinute, JSDate.maxTime. lia.
    + intros i Hi. rewrite Hday. apply elem_of_daysWithCompletion. now apply Hin.
    + rewrite Hday. rewrite elem_of_daysWithCompletion. exact Hout.
  - apply Nat2Z.inj_le. rewrite turns_in_Z. lia.
Qed.

(** At and west of Greenwich the count ends on the day of [todayKey]. *)
Lemma getCurrentStreak_west
  (tz : Z) (actions : list ActionItem) (todayKey : string) (day : Z) (k : nat) :
  -1440 < tz <= 0 ->
  JSDate.parseDateKey todayKey = Some day ->
  Z.of_nat k <= 99000000 ->
  (forall i : Z, 0 <= i < Z.of_nat k -> completedOn actions (dayKey (day - i))) ->
  ~ completedOn actions (dayKey (day - Z.of_nat k)) ->
  getCurrentStreak tz actions todayKey = Some (Normal k).
Proof.
  intros Htz Hparse Hk Hin Hout.
  apply (getCurrentStreak_counts tz actions todayKey day k);
    try assumption; try lia; rewrite (zoneShift_west tz Htz), Z.add_0_r; assumption.
Qed.

(** East of Greenwich the count ends on the day before [todayKey]. *)
Lemma getCurrentStreak_east
  (tz : Z) (actions : list ActionItem) (todayKey : string) (day : Z) (k : nat) :
  0 < tz < 1440 ->
  JSDate.parseDateKey todayKey = Some day ->
  Z.of_nat k <= 99000000 ->
  (forall i : Z, 0 <= i < Z.of_nat k -> completedOn actions (dayKey (day - 1 - i))) ->
  ~ completedOn actions (dayKey (day - 1 - Z.of_nat k)) ->
  getCurrentStreak tz actions todayKey = Some (Normal k).
Proof.
  intros Htz Hparse Hk Hin Hout.
  assert (Hshift : zoneShift tz = -1) by (apply zoneShift_east; lia).
  apply (getCurrentStreak_counts tz actions todayKey day k);
    try assumption; try lia; rewrite Hshift;
    replace (day + -1) with (day - 1) by lia; assumption.
Qed.

(** From 1 January 2000 to 31 December 2099 the key of a day parses back
    to that day: [todayKey] and the keys the loop prints name days the same
    way. *)
Lemma dayKey_parses_back : keysParseBack 36525 10957 = true.
Proof. vm_compute. reflexivity. Qed.

Lemma getCurrentStreak_west_example :
  getCurrentStreak (-300) threeDayRun "2024-05-10" = Some (Normal 3%nat)
  /\ getCurrentStreak 0 threeDayRun "2024-05-10" = Some (Normal 3%nat)
  /\ getCurrentStreak 0 [] "2024-05-10" = Some (Normal 0%nat).
Proof. repeat split; vm_compute; reflexivity. Qed.

(** C4, where the code departs from it. In a zone east of Greenwich, such
    as UTC+05:30, an action list whose only completion is dated
    [todayKey] ("2024-05-10" is in the union, "2024-05-09" is not) has a
    streak of 1 by the claim and of 0 by [getCurrentStreak]; a run of three
    days up to [todayKey] counts as 2. The loop starts from local midnight
    and prints it in UTC, so it starts one day early. *)
Theorem getCurrentStreak_east_of_Greenwich :
  JSDate.parseDateKey "2024-05-10" = Some 19853
  /\ dayKey 19853 = "2024-05-10"
  /\ dayKey (19853 - 1) = "2024-05-09"
  /\ completedOn doneTenthOfMay "2024-05-10"
  /\ ~ completedOn doneTenthOfMay "2024-05-09"
  /\ getCurrentStreak 330 doneTenthOfMay "2024-05-10" = Some (Normal 0%nat)
  /\ getCurrentStreak 0 doneTenthOfMay "2024-05-10" = Some (Normal 1%nat)
  /\ getCurrentStreak 330 threeDayRun "2024-05-10" = Some (Normal 2%nat).
Proof.
  split; [vm_compute; reflexivity |].
  split; [vm_compute; reflexivity |].
  split; [vm_compute; reflexivity |].
  split.
  { eexists. split; [apply list_elem_of_singleton; reflexivity |].
    cbn. apply list_elem_of_singleton. reflexivity. }
  split.
  { intros (a & Ha & Hkey). apply list_elem_of_singleton in Ha. subst a.
    cbn in Hkey. apply list_elem_of_singleton in Hkey. discriminate. }
  repeat split; vm_compute; reflexivity.
Qed.

End Streak.

(** ** Deadline *)

Section Deadline.

(** Reading [HH:MM] gives back the hour and the minute, checked for every
    time of the day. *)
Definition readsBack (hh mm : nat) : bool :=
  match map Num.Number (JS.split ":" (clockKey (Z.of_nat hh) (Z.of_nat mm))) with
  | [Num.Fin h; Num.Fin m] =>
      (Num.truncate h =? Z.of_nat hh) && (Num.truncate m =? Z.of_nat mm)
  | _ => false
  end.

Lemma readsBack_all :
  forallb (fun hh => forallb (readsBack hh) (seq 0 60)) (seq 0 24) = true.
Proof. vm_compute. reflexivity. Qed.

Lemma clockKey_parts (hh mm : Z) :
  0 <= hh < 24 -> 0 <= mm < 60 ->
  exists h m : Q,
    map Num.Number (JS.split ":" (clockKey hh mm)) = [Num.Fin h; Num.Fin m]
    /\ Num.truncate h = hh /\ Num.truncate m = mm.
Proof.
  intros Hh Hm.
  pose proof readsBack_all as Hall. rewrite forallb_forall in Hall.
  specialize (Hall (Z.to_nat hh)). rewrite forallb_forall in Hall.
  assert (Hin1 : In (Z.to_nat hh) (seq 0 24)) by (apply in_seq; lia).
  assert (Hin2 : In (Z.to_nat mm) (seq 0 60)) by (apply in_seq; lia).
  specialize (Hall Hin1 (Z.to_nat mm) Hin2). unfold readsBack in Hall.
  rewrite !Z2Nat.id in Hall by lia.
  destruct (map Num.Number (JS.split ":" (clockKey hh mm))) as [| [| | | h] [| [| | | m] [|]]];
    try discriminate.
  apply andb_true_iff in Hall. destruct Hall as [H1 H2].
  apply Z.eqb_eq in H1, H2. now exists h, m.
Qed.

Lemma length_append (a b : string) :
  String.length (a ++ b) = (String.length a + String.length b)%nat.
Proof. induction a as [| c a IH]; simpl; [reflexivity | now rewrite IH]. Qed.

Lemma pad_length (w : nat) : forall n : Z, String.length (JSDate.pad w n) = w.
Proof.
  induction w as [| w IH]; intros n; [reflexivity |].
  cbn [JSDate.pad]. rewrite length_append, IH. cbn. lia.
Qed.

Lemma clockKey_length (hh mm : Z) : String.length (clockKey hh mm) = 5%nat.
Proof.
  unfold clockKey. rewrite !length_append, !pad_length. reflexivity.
Qed.

(** The deadline of the local day of [now] at [hh:mm], and whether [now]
    is past it. *)
Lemma setHours_clock (tz now : Z) (h m : Q) :
  0 <= Num.truncate h < 24 -> 0 <= Num.truncate m < 60 ->
  Z.abs now + JSDate.msPerDay <= JSDate.maxTime ->
  exists deadline : Z,
    JSDate.setHours tz now h m = Some deadline
    /\ (deadline <? now)
       = (Num.truncate h * JSDate.msPerHour + Num.truncate m * JSDate.msPerMinute
          <? msIntoLocalDay tz now).
Proof.
  intros Hh Hm Hnow. unfold JSDate.setHours, msIntoLocalDay.
  set (local := now + tz * JSDate.msPerMinute).
  set (time := Num.truncate h * JSDate.msPerHour + Num.truncate m * JSDate.msPerMinute).
  pose proof (Z.div_mod local JSDate.msPerDay ltac:(unfold JSDate.msPerDay; lia)) as Hdm.
  pose proof (Z.mod_pos_bound local JSDate.msPerDay ltac:(unfold JSDate.msPerDay; lia)) as Hr.
  assert (Htime : 0 <= time < JSDate.msPerDay).
  { subst time. unfold JSDate.msPerHour, JSDate.msPerMinute, JSDate.msPerDay. lia. }
  assert (Hdeadline : local / JSDate.msPerDay * JSDate.msPerDay + time - tz * JSDate.msPerMinute
                      = now - local mod JSDate.msPerDay + time) by (subst local; lia).
  rewrite Hdeadline.
  eexists. split.
  - apply timeClip_Some. unfold JSDate.msPerDay, JSDate.maxTime in *. lia.
  - apply eq_true_iff_eq. rewrite !Z.ltb_lt. lia.
Qed.

(** A blank minute component counts as minute 0: the strings "21:" and
    ":" are read as 21:00 and 00:00. At 22:00 the deadline "21:" has
    passed, though the string is no time [HH:MM] and its minute component
    is empty. *)
Lemma isPastDeadline_blank_minutes :
  (forall hh mm : Z, clockKey hh mm <> "21:")
  /\ minutePart "21:" = Some ""
  /\ isPastDeadline 0 tenInTheEvening "21:" = true
  /\ isPastDeadline 0 tenInTheEvening ":" = true.
Proof.
  split.
  { intros hh mm Heq. pose proof (clockKey_length hh mm) as Hlen.
    rewrite Heq in Hlen. discriminate. }
  repeat split; vm_compute; reflexivity.
Qed.

(** C9, amended. [isPastDeadline] answers false when the hour or the
    minute component is absent or does not convert to a finite number; a
    component that is empty or blank converts to 0 and does not count as
    unparsable. For a time [HH:MM] it answers true exactly when the local
    time of day is strictly after [HH:MM:00.000]. *)
Theorem isPastDeadline_fail_open (tz now : Z) (deadlineTime : string) :
  (Num.isFinite (option_map Num.Number (hourPart deadlineTime)) = false
   \/ Num.isFinite (option_map Num.Number (minutePart deadlineTime)) = false ->
   isPastDeadline tz now deadlineTime = false)
  /\ (forall blank : string,
        JS.trim blank = "" -> Num.Number blank = Num.Fin 0)
  /\ (forall hh mm : Z,
        0 <= hh < 24 -> 0 <= mm < 60 ->
        deadlineTime = clockKey hh mm ->
        Z.abs now + JSDate.msPerDay <= JSDate.maxTime ->
        isPastDeadline tz now deadlineTime
        = (hh * JSDate.msPerHour + mm * JSDate.msPerMinute <? msIntoLocalDay tz now)).
Proof.
  split; [| split].
  - unfold isPastDeadline, hourPart, minutePart. rewrite !nth_error_map.
    intros [H | H].
    + destruct (nth_error (JS.split ":" deadlineTime) 0) as [s |]; cbn in *;
        [| reflexivity].
      destruct (Num.Number s); try discriminate; reflexivity.
    + destruct (option_map Num.Number (nth_error (JS.split ":" deadlineTime) 0))
        as [[| | | h] |]; try reflexivity.
      destruct (nth_error (JS.split ":" deadlineTime) 1) as [s |]; cbn in *;
        [| reflexivity].
      destruct (Num.Number s); try discriminate; reflexivity.
  - intros blank Hblank. unfold Num.Number. now rewrite Hblank.
  - intros hh mm Hh Hm -> Hnow.
    destruct (clockKey_parts hh mm Hh Hm) as (h & m & Hparts & Hth & Htm).
    unfold isPastDeadline. rewrite Hparts. cbn [nth_error].
    destruct (setHours_clock tz now h m) as (deadline & Hset & Hcmp);
      [lia | lia | exact Hnow |].
    rewrite Hset, Hcmp, Hth, Htm. reflexivity.
Qed.

(** The deadline "21:00" has not passed at 20:59 and has passed at
    21:01. *)
Lemma isPastDeadline_nine_in_the_evening :
  isPastDeadline 0 oneBeforeNine "21:00" = false
  /\ isPastDeadline 0 oneAfterNine "21:00" = true
  /\ isPastDeadline 330 (oneBeforeNine - 330 * JSDate.msPerMinute) "21:00" = false
  /\ isPastDeadline 330 (oneAfterNine - 330 * JSDate.msPerMinute) "21:00" = true.
Proof. repeat split; vm_compute; reflexivity. Qed.

End Deadline.

(** ** State codec *)

Section CodecRecovery.

Context `{engine : StringHost}.

Variable JSON_parse : string -> option JValue.

Local Open Scope float_scope.





Lemma loadSavedState_blob (host : Codec.Host) (raw : string) :
  holdsBlob host raw ->
  Codec.loadSavedState JSON_parse host =
  match JSON_parse raw with
  | None => Normal (defaultLoaded, delete APP_STORAGE_KEY (Codec.localStorage host))
  | Some parsed =>
      match Codec.decodeParsed parsed with
      | Normal state => Normal (state, Codec.localStorage host)
      | Throw _ => Normal (defaultLoaded, delete APP_STORAGE_KEY (Codec.localStorage host))
      end
  end.
Proof.
  intros (Hwin & Hget & Hraw). unfold Codec.loadSavedState.
  rewrite Hwin, Hget. cbn [negb].
  destruct raw as [| c raw]; [contradiction |].
  unfold Codec.parseJSON.
  destruct (JSON_parse (String c raw)) as [parsed |]; [| reflexivity].
  cbn [bind]. destruct (Codec.decodeParsed parsed); reflexivity.
Qed.



End CodecRecovery.



(** The blob "not json", on which [JSON.parse] throws: the default state
    comes back and the key is gone from the storage. *)
Lemma loadSavedState_not_json `{engine : StringHost}
    (JSON_parse : string -> option JValue) :
  JSON_parse "not json" = None ->
  Codec.loadSavedState JSON_parse corruptHost = Normal (defaultLoaded, ∅).
Proof.
  intros Hparse. rewrite (loadSavedState_blob JSON_parse corruptHost "not json").
  - rewrite Hparse. unfold corruptHost. cbn [Codec.localStorage].
    now rewrite delete_singleton_eq.
  - split; [reflexivity |]. split; [| discriminate].
    unfold corruptHost. cbn [Codec.localStorage]. apply lookup_singleton_eq.
Qed.

